(** * A shallow embedding of the Mari engine of the Shotgun Pipeline Toolkit

    The development follows [engine.py]: the class [MariEngine] with its
    [host_info] property, the version gate of [pre_app_init], the palette
    based [show_panel], the project-opened event handler and the start-up
    command dispatch of [_run_app_instance_commands].

    Python values that the engine inspects by truthiness are kept as a small
    value type, dictionaries are [gmap]s, host objects (widgets, palettes,
    the environment) are explicit state, and every routine that can raise
    returns a [result]. *)

From stdpp Require Import gmap strings list fin_maps pretty.
From Stdlib Require Import ZArith Lia.

Open Scope Z_scope.

(** ** Python values, exceptions and results *)

Module Py.

(** The values that end up in toolkit metadata and settings. *)
Inductive value : Type :=
| VNone
| VBool (b : bool)
| VInt (z : Z)
| VStr (s : string).

#[global] Instance value_eq_dec : EqDecision value.
Proof. solve_decision. Defined.

(** Python's truth test on those values: [None], [False], [0] and the
    empty string are false, everything else is true. *)
Definition truthy (v : value) : bool :=
  match v with
  | VNone => false
  | VBool b => b
  | VInt z => negb (z =? 0)
  | VStr s => negb (String.eqb s EmptyString)
  end.

(** [d.get(k)]: the value under [k], or [None]. *)
Definition get (d : gmap string value) (k : string) : value :=
  default VNone (d !! k).

(** Exception classes the engine raises or catches.  [OtherError] stands
    for any exception class that is not a [TankError]. *)
Inductive exn : Type :=
| TankError (msg : string)
| AttributeError (msg : string)
| Exception (msg : string)
| OtherError (cls msg : string).

Inductive result (A : Type) : Type :=
| Return (a : A)
| Raise (e : exn).
Arguments Return {A} a.
Arguments Raise {A} e.

Definition raises {A} (r : result A) : Prop :=
  match r with Return _ => False | Raise _ => True end.

(** The logging levels the engine uses. *)
Inductive level : Type := DEBUG | INFO | WARNING | ERROR.

(** A log call: the level, the format string and its arguments. *)
Record record : Type := Log { lvl : level; fmt : string; args : list string }.

(** [str(v)], as the [%s] conversions print a value. *)
Definition str (v : value) : string :=
  match v with
  | VNone => "None"
  | VBool true => "True"
  | VBool false => "False"
  | VInt z => pretty z
  | VStr s => s
  end.

#[global] Instance level_eq_dec : EqDecision level.
Proof. solve_decision. Defined.
#[global] Instance record_eq_dec : EqDecision record.
Proof. solve_decision. Defined.

End Py.

Import Py.

(** ** A state and exception monad for the stateful routines *)

Definition M (S A : Type) : Type := S → result A * S.

Section monad.
Context {S : Type}.

Definition ret {A} (a : A) : M S A := λ s, (Return a, s).
Definition raise {A} (e : exn) : M S A := λ s, (Raise e, s).
Definition bind {A B} (c : M S A) (k : A → M S B) : M S B :=
  λ s, match c s with
       | (Return a, s') => k a s'
       | (Raise e, s') => (Raise e, s')
       end.
Definition gets {A} (f : S → A) : M S A := λ s, (Return (f s), s).
Definition modify (f : S → S) : M S unit := λ s, (Return tt, f s).

(** [try: c except TankError, e: h e] *)
Definition try_except_TankError {A} (c : M S A) (h : string → M S A) : M S A :=
  λ s, match c s with
       | (Raise (TankError msg), s') => h msg s'
       | r => r
       end.

(** [when b c] runs [c] only if [b] holds (an [if] without [else]). *)
Definition when (b : bool) (c : M S unit) : M S unit :=
  if b then c else ret tt.

(** A [for] loop over a list, stopping at the first exception. *)
Fixpoint for_each {A} (l : list A) (body : A → M S unit) : M S unit :=
  match l with
  | [] => ret tt
  | x :: l' => bind (body x) (λ _, for_each l' body)
  end.

(** A [for] loop that threads a local variable through its body. *)
Fixpoint for_fold {A B} (l : list A) (body : B → A → M S B) (b : B) : M S B :=
  match l with
  | [] => ret b
  | x :: l' => bind (body b x) (for_fold l' body)
  end.
End monad.

Notation "x ←' c ; k" := (bind c (λ x, k))
  (at level 20, c at level 100, k at level 200, right associativity,
   format "x  ←'  c ;  '/' k").
Notation "c ;;' k" := (bind c (λ _, k))
  (at level 100, k at level 200, right associativity,
   format "c  ;;'  '/' k").

(** ** The host version *)

Record version : Type := Version { major : Z; minor : Z; revision : Z }.

(** ** [host_info] *)

Module HostInfo.

(** ["%s.%s.%s" % (major, minor, revision)] *)
Definition version_string (v : version) : string :=
  pretty (major v) +:+ "." +:+ pretty (minor v) +:+ "." +:+ pretty (revision v).

(** [app_version] is the outcome of [mari.app.version()]: the call is
    inside the [try] block and a bare [except] swallows whatever it
    raises. *)
Definition host_info (app_version : result version) : result (gmap string string) :=
  let host_info : gmap string string :=
    <["version" := "unknown"]> (<["name" := "Mari"]> ∅) in
  Return
    match app_version with
    | Return mari_version =>
        <["version" := version_string mari_version]> host_info
    | Raise _ => host_info
    end.

End HostInfo.

(** ** [pre_app_init]: the version gate *)

Module PreAppInit.

(** What the routine reads from the host and from the configuration:
    [mari.app.version()], [mari.app.inTerminalMode()] and the setting
    [compatibility_dialog_min_version]. *)
Record host : Type := Host {
  app_version : result version;
  inTerminalMode : bool;
  compatibility_dialog_min_version : Z
}.

(** What it writes: [os.environ], the dialogs opened through
    [mari.utils.message], the engine log and the cached manager handles. *)
Record state : Type := State {
  environ : gmap string string;
  messages : list (string * string);
  log : list record;
  managers_cached : bool
}.

Definition MIN_VERSION : Z * Z * Z := (2, 6, 1).
Definition MAX_VERSION : Z * Z := (4, 2).

Definition SGTK_MARI_VERSION_WARNING_SHOWN : string :=
  "SGTK_MARI_VERSION_WARNING_SHOWN".

(** ["%d.%dv%d" % (major, minor, revision)] *)
Definition version_label (vmajor vminor vrevision : Z) : string :=
  pretty vmajor +:+ "." +:+ pretty vminor +:+ "v" +:+ pretty vrevision.

Definition unsupported_message (v : version) : string :=
  "This version of Mari (" +:+ version_label (major v) (minor v) (revision v)
  +:+ ") is not supported by Shotgun Toolkit.  The"
  +:+ "minimum required version is "
  +:+ version_label MIN_VERSION.1.1 MIN_VERSION.1.2 MIN_VERSION.2 +:+ ".".

Definition untested_message (v : version) : string :=
  "The Shotgun Pipeline Toolkit has not yet been fully tested with Mari "
  +:+ version_label (major v) (minor v) (revision v) +:+ ". "
  +:+ "You can continue to use the Toolkit but you may experience bugs or "
  +:+ "instability.  Please report any issues you see to support@shotgunsoftware.com".

(** The two comparisons of the [if] / [elif]. *)
Definition below_minimum (v : version) : bool :=
  (major v <? MIN_VERSION.1.1)
  || ((major v =? MIN_VERSION.1.1) && (minor v <? MIN_VERSION.1.2)).

Definition above_maximum (v : version) : bool :=
  (major v >? MAX_VERSION.1)
  || ((major v =? MAX_VERSION.1) && (minor v >? MAX_VERSION.2)).

Definition emit (r : record) : M state unit :=
  modify (λ s, State (environ s) (messages s) (log s ++ [r]) (managers_cached s)).

(** [mari.utils.message(msg, title)] *)
Definition message (msg title : string) : M state unit :=
  modify (λ s, State (environ s) (messages s ++ [(msg, title)]) (log s)
                 (managers_cached s)).

(** [os.environ[k] = v] *)
Definition setenv (k v : string) : M state unit :=
  modify (λ s, State (<[k := v]> (environ s)) (messages s) (log s)
                 (managers_cached s)).

(** The manager handles come from the [tk_mari] python module, which the
    engine only instantiates here. *)
Definition cache_managers : M state unit :=
  modify (λ s, State (environ s) (messages s) (log s) true).

Definition has_ui (h : host) : bool := negb (inTerminalMode h).

Definition pre_app_init (h : host) : M state unit :=
  emit (Log DEBUG "%s: Initializing..." []) ;;'
  mari_version ←' (λ s, (app_version h, s)) ;
  (if below_minimum mari_version then
     raise (TankError (unsupported_message mari_version))
   else if above_maximum mari_version then
     let msg := untested_message mari_version in
     env ←' gets environ ;
     when (has_ui h
           && negb (bool_decide (SGTK_MARI_VERSION_WARNING_SHOWN ∈ dom env))
           && (major mari_version >=? compatibility_dialog_min_version h))
       (message msg "Shotgun" ;;'
        setenv SGTK_MARI_VERSION_WARNING_SHOWN "1") ;;'
     emit (Log WARNING msg [])
   else ret tt) ;;'
  cache_managers.

(** The version ranges of the requirements, on the triple
    (major, minor, revision) and on the pair (major, minor). *)
Definition below_2_6 (v : version) : Prop :=
  major v < 2 ∨ (major v = 2 ∧ minor v < 6).
Definition at_least_2_6_1 (v : version) : Prop :=
  2 < major v ∨ (major v = 2 ∧ (6 < minor v ∨ (minor v = 6 ∧ 1 ≤ revision v))).
Definition at_most_4_2 (v : version) : Prop :=
  major v < 4 ∨ (major v = 4 ∧ minor v ≤ 2).
Definition above_4_2 (v : version) : Prop :=
  4 < major v ∨ (major v = 4 ∧ 2 < minor v).

(** When the warning dialog is due: a user interface, the flag not yet
    in the environment, and a major version the setting lets through. *)
Definition dialog_due (h : host) (s : state) (v : version) : Prop :=
  inTerminalMode h = false
  ∧ (SGTK_MARI_VERSION_WARNING_SHOWN ∉ dom (environ s))
  ∧ compatibility_dialog_min_version h ≤ major v.

#[global] Instance dialog_due_dec h s v : Decision (dialog_due h s v).
Proof. unfold dialog_due. apply _. Defined.

(** A process calls the routine once per engine start; [starts] replays a
    series of engine starts on the same process state, whatever each one
    returns. *)
Fixpoint starts (hs : list host) (s : state) : state :=
  match hs with
  | [] => s
  | h :: hs' => starts hs' (pre_app_init h s).2
  end.

End PreAppInit.

(** ** [show_panel]: panels hosted in Mari palettes *)

Module Panel.

Definition SHOTGUN_APP_PALETTE_PREFIX : string := "panel_".
Definition MARI_MAIN_WINDOW_WIDGET_NAME : string := "MainWindow".

(** Who owns a Qt widget: nobody, another widget, or the palette that
    hosts it as its body. *)
Inductive owner : Type :=
| NoParent
| WidgetParent (w : nat)
| PaletteParent (name : string).

#[global] Instance owner_eq_dec : EqDecision owner.
Proof. solve_decision. Defined.

(** A live widget: [wid] is the identity of the Python object, [contents]
    stands for whatever the toolkit app keeps inside it. *)
Record widget : Type := Widget {
  wid : nat;
  objectName : string;
  parent : owner;
  contents : Z
}.

(** A palette of the host: its short name (title), the widget it hosts and
    whether it has been brought to the front. *)
Record palette : Type := Palette {
  shortName : string;
  body : nat;
  inFront : bool
}.

(** The calls made on the host, in program order. *)
Inductive call : Type :=
| AllWidgets
| Construct (w : nat)
| SetParent (w main_window : nat)
| PalettesFind (name : string)
| PalettesRemove (name : string)
| PalettesCreate (name : string) (w : nat)
| SetShortName (name title : string)
| ShowInFront (name : string).

#[global] Instance call_eq_dec : EqDecision call.
Proof. solve_decision. Defined.

(** The host as [show_panel] sees it.  [widgets] is
    [QApplication.allWidgets()] in the order the scan visits it;
    [palettes] is [mari.palettes], a registry keyed by palette name. *)
Record host : Type := Host {
  app_version : version;
  widgets : list widget;
  palettes : gmap string palette;
  calls : list call;
  log : list record
}.

(** What [widget_class] builds: the constructor decides
    the object name and the initial contents of the new widget. *)
Record widget_class : Type := WidgetClass {
  new_objectName : string;
  new_contents : Z
}.

Definition refusal_message (v : version) : string :=
  "This version of Mari (" +:+ pretty (major v) +:+ "." +:+ pretty (minor v)
  +:+ "v" +:+ pretty (revision v) +:+ ") may have palette resize issues. "
  +:+ "Skipping show_panel method.".

Definition record_call (c : call) : M host unit :=
  modify (λ h, Host (app_version h) (widgets h) (palettes h) (calls h ++ [c]) (log h)).

Definition debug (fmt : string) (args : list string) : M host unit :=
  modify (λ h, Host (app_version h) (widgets h) (palettes h) (calls h)
                 (log h ++ [Log DEBUG fmt args])).

Definition set_widgets (ws : list widget) : M host unit :=
  modify (λ h, Host (app_version h) ws (palettes h) (calls h) (log h)).

Definition set_palettes (ps : gmap string palette) : M host unit :=
  modify (λ h, Host (app_version h) (widgets h) ps (calls h) (log h)).

(** The loop over [allWidgets()]: the last widget carrying each name
    wins.  The pair is [(main_window, shotgun_widget)]. *)
Fixpoint scan (widget_id : string) (ws : list widget)
    (found : option nat * option nat) : option nat * option nat :=
  match ws with
  | [] => found
  | w :: ws' =>
      let widget_name := objectName w in
      if String.eqb widget_name widget_id then
        scan widget_id ws' (found.1, Some (wid w))
      else if String.eqb widget_name MARI_MAIN_WINDOW_WIDGET_NAME then
        scan widget_id ws' (Some (wid w), found.2)
      else scan widget_id ws' found
  end.

Definition allWidgets : M host (list widget) :=
  record_call AllWidgets ;;' gets widgets.

(** An identity no live widget has. *)
Definition fresh_wid (ws : list widget) : nat :=
  S (foldr Nat.max 0%nat (wid <$> ws)).

(** [widget_class] *)
Definition construct (cls : widget_class) : M host nat :=
  ws ←' gets widgets ;
  let w := fresh_wid ws in
  record_call (Construct w) ;;'
  set_widgets (ws ++ [Widget w (new_objectName cls) NoParent (new_contents cls)]) ;;'
  ret w.

Definition reparent (w : nat) (o : owner) (x : widget) : widget :=
  if decide (wid x = w) then Widget (wid x) (objectName x) o (contents x) else x.

(** [widget.setParent(main_window)] *)
Definition setParent (w main_window : nat) : M host unit :=
  record_call (SetParent w main_window) ;;'
  ws ←' gets widgets ;
  set_widgets (reparent w (WidgetParent main_window) <$> ws).

(** [mari.palettes.find(name)]: the palette, or [None]. *)
Definition palettes_find (name : string) : M host (option palette) :=
  record_call (PalettesFind name) ;;'
  ps ←' gets palettes ;
  ret (ps !! name).

(** [mari.palettes.remove(name)]: the palette goes, and with it every
    widget it still owns. *)
Definition palettes_remove (name : string) : M host unit :=
  record_call (PalettesRemove name) ;;'
  ps ←' gets palettes ;
  ws ←' gets widgets ;
  set_palettes (delete name ps) ;;'
  set_widgets (filter (λ x, parent x ≠ PaletteParent name) ws).

(** [mari.palettes.create(name, widget)]: a new palette takes the widget
    as its body, which makes the palette the owner of the widget. *)
Definition palettes_create (name : string) (w : nat) : M host unit :=
  record_call (PalettesCreate name w) ;;'
  ps ←' gets palettes ;
  ws ←' gets widgets ;
  set_palettes (<[name := Palette EmptyString w false]> ps) ;;'
  set_widgets (reparent w (PaletteParent name) <$> ws).

(** [palette.setShortName(title)] and [palette.showInFront()] *)
Definition setShortName (name title : string) : M host unit :=
  record_call (SetShortName name title) ;;'
  ps ←' gets palettes ;
  set_palettes (alter (λ p, Palette title (body p) (inFront p)) name ps).

Definition showInFront (name : string) : M host unit :=
  record_call (ShowInFront name) ;;'
  ps ←' gets palettes ;
  set_palettes (alter (λ p, Palette (shortName p) (body p) true) name ps).

Definition show_panel (panel_id title bundle_name : string)
    (cls : widget_class) : M host nat :=
  mari_version ←' gets app_version ;
  if major mari_version <? 4 then
    raise (AttributeError (refusal_message mari_version))
  else
    debug "Showing pane %s - %s from %s" [panel_id; title; bundle_name] ;;'
    let widget_id := SHOTGUN_APP_PALETTE_PREFIX +:+ panel_id in
    ws ←' allWidgets ;
    let '(main_window, shotgun_widget) := scan widget_id ws (None, None) in
    match main_window with
    | None =>
        raise (Exception ("Unable to get the '" +:+ MARI_MAIN_WINDOW_WIDGET_NAME
                          +:+ "' widget!"))
    | Some main_window =>
        shotgun_widget ←'
          match shotgun_widget with
          | None =>
              debug "Creating new widget %s" [widget_id] ;;'
              construct cls
          | Some w =>
              debug "Reparenting widget %s under Mari main window." [widget_id] ;;'
              ret w
          end ;
        setParent shotgun_widget main_window ;;'
        palette_widget ←' palettes_find panel_id ;
        when (bool_decide (is_Some palette_widget))
          (palettes_remove panel_id) ;;'
        palettes_create panel_id shotgun_widget ;;'
        setShortName panel_id title ;;'
        showInFront panel_id ;;'
        ret shotgun_widget
    end.

(** The name under which the panel widget of [panel_id] is looked up,
    and the outcome of the scan on a host: the main window and the panel
    widget, where found. *)
Definition widget_id (panel_id : string) : string :=
  SHOTGUN_APP_PALETTE_PREFIX +:+ panel_id.

Definition found_main_window (h : host) (panel_id : string) : option nat :=
  (scan (widget_id panel_id) (widgets h) (None, None)).1.

Definition found_widget (h : host) (panel_id : string) : option nat :=
  (scan (widget_id panel_id) (widgets h) (None, None)).2.

(** The widget a call returns: the one found, or else a new identity. *)
Definition returned (h : host) (panel_id : string) : nat :=
  default (fresh_wid (widgets h)) (found_widget h panel_id).

(** The widgets the call works on: those of the host, and the new one
    when none was found. *)
Definition candidates (h : host) (panel_id : string) (cls : widget_class)
    : list widget :=
  match found_widget h panel_id with
  | Some _ => widgets h
  | None =>
      widgets h ++ [Widget (returned h panel_id) (new_objectName cls) NoParent
                      (new_contents cls)]
  end.

(** The host after a call of [show_panel] that went through, field by
    field; [main_window] is the main window found. *)
Definition widgets_after (h : host) (panel_id : string) (cls : widget_class)
    (main_window : nat) : list widget :=
  let w := returned h panel_id in
  let ws1 := reparent w (WidgetParent main_window) <$> candidates h panel_id cls in
  let ws2 :=
    match palettes h !! panel_id with
    | Some _ => filter (λ x, parent x ≠ PaletteParent panel_id) ws1
    | None => ws1
    end in
  reparent w (PaletteParent panel_id) <$> ws2.

Definition calls_after (h : host) (panel_id title : string) (main_window : nat)
    : list call :=
  let w := returned h panel_id in
  calls h
  ++ [AllWidgets]
  ++ match found_widget h panel_id with Some _ => [] | None => [Construct w] end
  ++ [SetParent w main_window; PalettesFind panel_id]
  ++ match palettes h !! panel_id with
     | Some _ => [PalettesRemove panel_id]
     | None => []
     end
  ++ [PalettesCreate panel_id w; SetShortName panel_id title; ShowInFront panel_id].

Definition log_after (h : host) (panel_id title bundle_name : string) : list record :=
  log h
  ++ [Log DEBUG "Showing pane %s - %s from %s" [panel_id; title; bundle_name]]
  ++ [match found_widget h panel_id with
      | Some _ =>
          Log DEBUG "Reparenting widget %s under Mari main window." [widget_id panel_id]
      | None => Log DEBUG "Creating new widget %s" [widget_id panel_id]
      end].

(** The last widget of a list that carries a given name. *)
Definition last_named (id : string) (l : list widget) : option widget :=
  last (filter (λ x, objectName x = id) l).

(** A widget of the host, by identity, name and contents. *)
Definition live (h : host) (w : nat) (name : string) (c : Z) : Prop :=
  ∃ x, x ∈ widgets h ∧ wid x = w ∧ objectName x = name ∧ contents x = c.

End Panel.

(** ** The project-opened handler *)

Module ProjectOpened.

(** A toolkit context is opaque to the engine, which only compares two
    of them; a project is identified by the handle the host passes in. *)
Definition ctx : Type := nat.
Definition project : Type := nat.

(** [{"type": ..., "id": ...}] *)
Record entity : Type := Entity { etype : value; eid : value }.

#[global] Instance entity_eq_dec : EqDecision entity.
Proof. solve_decision. Defined.

(** The toolkit calls the handler makes: [self.sgtk.context_from_entity]
    and [sgtk.platform.change_context], each with the exception it may
    raise. *)
Record sgtk : Type := Sgtk {
  context_from_entity : value → value → result ctx;
  change_context_outcome : ctx → result unit
}.

(** The engine state the handler reads and writes: [self.context], the
    metadata stored on the host projects, the log, and the context
    switches requested from the toolkit. *)
Record engine : Type := Engine {
  context : ctx;
  metadata : gmap project (gmap string value);
  log : list record;
  switches : list ctx
}.

Definition logged (r : record) (s : engine) : engine :=
  Engine (context s) (metadata s) (log s ++ [r]) (switches s).

Definition emit (r : record) : M engine unit := modify (logged r).

Definition log_debug (msg : string) (args : list string) : M engine unit :=
  emit (Log DEBUG msg args).
Definition log_error (msg : string) (args : list string) : M engine unit :=
  emit (Log ERROR msg args).

(** Modelled from the spec: the Metadata Manager ([tk_mari.MetadataManager],
    not part of [engine.py]) keeps a key-value mapping on each host project,
    with the optional keys [task_id], [entity_id], [entity_type],
    [project_id] and [version]; a project the toolkit never touched has no
    metadata. *)
Definition project_metadata (s : engine) (p : project) : gmap string value :=
  default ∅ (metadata s !! p).

Definition get_project_metadata (p : project) : M engine (gmap string value) :=
  gets (λ s, project_metadata s p).

Definition get_project_version (p : project) : M engine value :=
  gets (λ s, get (project_metadata s p) "version").

Definition versioned (p : project) (v : value) (s : engine) : engine :=
  Engine (context s)
    (<[p := <["version" := v]> (project_metadata s p)]> (metadata s))
    (log s) (switches s).

Definition set_project_version (p : project) (v : value) : M engine unit :=
  modify (versioned p v).

(** [sgtk.platform.change_context(ctx)]: the current context is replaced
    wholesale when the switch succeeds. *)
Definition change_context (tk : sgtk) (c : ctx) : M engine unit :=
  λ s, match change_context_outcome tk c with
       | Return _ => (Return tt, Engine c (metadata s) (log s) (switches s ++ [c]))
       | Raise e => (Raise e, Engine (context s) (metadata s) (log s) (switches s ++ [c]))
       end.

(** The [if] / [elif] chain that picks the context entity; [None] is the
    final [else].  The subscripts [md[k]] are only evaluated after
    [md.get(k)] was found true, so they read the same value. *)
Definition ctx_entity (md : gmap string value) : option entity :=
  if truthy (get md "task_id") then
    Some (Entity (VStr "Task") (get md "task_id"))
  else if truthy (get md "entity_id") && truthy (get md "entity_type") then
    Some (Entity (get md "entity_type") (get md "entity_id"))
  else if truthy (get md "project_id") then
    Some (Entity (VStr "Project") (get md "project_id"))
  else None.

Definition __on_project_opened (tk : sgtk) (opened_project : project)
    (is_new : bool) : M engine unit :=
  if is_new then ret tt
  else
    log_debug "Project opened - attempting to set the current Work Area to match..." [] ;;'
    md ←' get_project_metadata opened_project ;
    if bool_decide (md = ∅) then
      log_debug "Work area unchanged - the opened project is not Shotgun aware!" []
    else
      v ←' get_project_version opened_project ;
      when (negb (truthy v)) (set_project_version opened_project (VInt 1)) ;;'
      match ctx_entity md with
      | None =>
          log_debug
            "Work area unchanged - failed to determine a context for the opened project!" []
      | Some e =>
          resolved ←'
            try_except_TankError
              (c ←' (λ s, (context_from_entity tk (etype e) (eid e), s)) ;
               ret (Some c))
              (λ msg,
                 log_error
                   "Work area unchanged - Failed to create context from '%s %s': %s"
                   [str (etype e); str (eid e); msg] ;;'
                 ret None) ;
          match resolved with
          | None => ret tt
          | Some c =>
              current ←' gets context ;
              if decide (c = current) then ret tt
              else
                log_debug "Changing the engine context to Work Area: %s" [pretty c] ;;'
                change_context tk c
          end
      end.

(** The state after the backwards-compatibility step. *)
Definition after_stamp (p : project) (s : engine) : engine :=
  if truthy (get (project_metadata s p) "version") then s
  else versioned p (VInt 1) s.

Definition opened_log : record :=
  Log DEBUG "Project opened - attempting to set the current Work Area to match..." [].

(** A metadata key counts as present when the handler's own test finds
    it: [md.get(key)] is true.  The Metadata Manager stores [0] and the
    empty string where there is no value, and those count as absent. *)
Definition present (md : gmap string value) (key : string) : Prop :=
  truthy (get md key) = true.

#[global] Instance present_dec md key : Decision (present md key).
Proof. unfold present. apply _. Defined.

(** The four ways the handler gives up: a new project, no metadata, no
    entity to derive, and the resolver raising [TankError]. *)
Definition aborts (tk : sgtk) (p : project) (is_new : bool) (s : engine) : Prop :=
  is_new = true
  ∨ project_metadata s p = ∅
  ∨ ctx_entity (project_metadata s p) = None
  ∨ ∃ e msg, ctx_entity (project_metadata s p) = Some e
             ∧ context_from_entity tk (etype e) (eid e) = Raise (TankError msg).

(** Two engine states that differ at most by their log. *)
Definition same_but_log (s s' : engine) : Prop :=
  context s' = context s ∧ metadata s' = metadata s ∧ switches s' = switches s.

End ProjectOpened.

(** ** Start-up command dispatch *)

Module Startup.

(** An entry of [self.commands]: the instance name of the app found under
    [value["properties"].get("app")], if any, and the callback, named by
    the identity of the callable. *)
Record command : Type := Command { app : option string; callback : nat }.

(** An entry of the [run_at_startup] setting. *)
Record app_setting : Type := AppSetting { app_instance : string; name : string }.

(** The engine while it dispatches: its log and the callables invoked so
    far, in order. *)
Record engine : Type := Engine { log : list record; invoked : list nat }.

Definition emit (r : record) : M engine unit :=
  modify (λ s, Engine (log s ++ [r]) (invoked s)).

(** [command()]: the callable runs, and may raise. *)
Definition invoke (behaviour : nat → result unit) (command : nat) : M engine unit :=
  λ s, (behaviour command, Engine (log s) (invoked s ++ [command])).

(** [d.iteritems()]: the items of a dictionary in the order the
    interpreter enumerates them, which the program does not choose. *)
Definition iteritems {A} (d : gmap string A) : list (string * A) := map_to_list d.

(** The body of the first loop: file the command under its app instance. *)
Definition file_command (app_instance_commands : gmap string (gmap string nat))
    (item : string * command) : gmap string (gmap string nat) :=
  match app item.2 with
  | Some instance_name =>
      let command_dict := default ∅ (app_instance_commands !! instance_name) in
      <[instance_name := <[item.1 := callback item.2]> command_dict]>
        app_instance_commands
  | None => app_instance_commands
  end.

Definition app_instance_commands (commands : gmap string command)
    : gmap string (gmap string nat) :=
  foldl file_command ∅ (iteritems commands).

(** [', '.join("'%s'" % name for name in command_dict)] *)
Definition known_commands (command_dict : gmap string nat) : string :=
  String.concat ", " ((λ item, "'" +:+ item.1 +:+ "'") <$> iteritems command_dict).

(** The three log calls of the second loop. *)
Definition not_installed (engine_name : string) (s : app_setting) : record :=
  Log WARNING
    "%s configuration setting 'run_at_startup' requests app '%s' that is not installed."
    [engine_name; app_instance s].

Definition unknown_command (engine_name : string) (s : app_setting)
    (command_dict : gmap string nat) : record :=
  Log WARNING
    ("%s configuration setting 'run_at_startup' requests app '%s' unknown command '%s'. "
     +:+ "Known commands: %s")
    [engine_name; app_instance s; name s; known_commands command_dict].

Definition running (engine_name instance_name command_name : string) : record :=
  Log DEBUG "%s startup running app '%s' command '%s'."
    [engine_name; instance_name; command_name].

(** The body of the second loop, for one entry of the setting. *)
Definition startup_entry (engine_name : string)
    (app_instance_commands : gmap string (gmap string nat))
    (commands_to_run : list nat) (app_setting_dict : app_setting)
    : M engine (list nat) :=
  let app_instance_name := app_instance app_setting_dict in
  let setting_command_name := name app_setting_dict in
  match app_instance_commands !! app_instance_name with
  | None =>
      emit (not_installed engine_name app_setting_dict) ;;'
      ret commands_to_run
  | Some command_dict =>
      if String.eqb setting_command_name EmptyString then
        for_fold (iteritems command_dict)
          (λ commands_to_run item,
             emit (running engine_name app_instance_name item.1) ;;'
             ret (commands_to_run ++ [item.2]))
          commands_to_run
      else
        match command_dict !! setting_command_name with
        | Some command_function =>
            emit (running engine_name app_instance_name setting_command_name) ;;'
            ret (commands_to_run ++ [command_function])
        | None =>
            emit (unknown_command engine_name app_setting_dict command_dict) ;;'
            ret commands_to_run
        end
  end.

(** The list [commands_to_run] once the second loop is over. *)
Definition commands_to_run (engine_name : string) (commands : gmap string command)
    (run_at_startup : list app_setting) : M engine (list nat) :=
  for_fold run_at_startup
    (startup_entry engine_name (app_instance_commands commands)) [].

Definition _run_app_instance_commands (engine_name : string)
    (commands : gmap string command) (run_at_startup : list app_setting)
    (behaviour : nat → result unit) : M engine unit :=
  to_run ←' commands_to_run engine_name commands run_at_startup ;
  for_each to_run (invoke behaviour).

(** The commands an app instance registered with the engine, by name. *)
Definition registered (commands : gmap string command) (instance_name : string)
    : gmap string nat :=
  omap (λ c, if decide (app c = Some instance_name) then Some (callback c) else None)
    commands.

(** What one entry of the setting adds to [commands_to_run], and what it
    logs. *)
Definition entry_commands (app_instance_commands : gmap string (gmap string nat))
    (s : app_setting) : list nat :=
  match app_instance_commands !! app_instance s with
  | None => []
  | Some command_dict =>
      if String.eqb (name s) EmptyString then (iteritems command_dict).*2
      else match command_dict !! name s with
           | Some command_function => [command_function]
           | None => []
           end
  end.

Definition entry_log (engine_name : string)
    (app_instance_commands : gmap string (gmap string nat))
    (s : app_setting) : list record :=
  match app_instance_commands !! app_instance s with
  | None => [not_installed engine_name s]
  | Some command_dict =>
      if String.eqb (name s) EmptyString then
        (λ item, running engine_name (app_instance s) item.1) <$> iteritems command_dict
      else match command_dict !! name s with
           | Some _ => [running engine_name (app_instance s) (name s)]
           | None => [unknown_command engine_name s command_dict]
           end
  end.

(** A two-level lookup in the grouping of the first loop. *)
Definition lookup2 (m : gmap string (gmap string nat)) (instance_name command_name : string)
    : option nat :=
  m !! instance_name ≫= λ d, d !! command_name.

End Startup.

(** ** [_emit_log_message]: the logging bridge *)

Module Logging.

(** A [logging.LogRecord] as the bridge reads it: the numeric level, the
    leaf name of the logger, the message with its arguments merged, and the
    text of the exception the record carries (empty when it has none). *)
Record LogRecord : Type := LogRec {
  levelno : Z;
  basename : string;
  message : string;
  exc_text : string
}.

(** [logging.INFO] and [logging.ERROR] *)
Definition INFO : Z := 20.
Definition ERROR : Z := 40.

Definition newline : string := String (Ascii.ascii_of_nat 10) EmptyString.

(** [s[-1:] == "\n"] *)
Fixpoint ends_with_newline (s : string) : bool :=
  match s with
  | EmptyString => false
  | String c EmptyString => Ascii.eqb c (Ascii.ascii_of_nat 10)
  | String _ s' => ends_with_newline s'
  end.

(** [logging.Formatter(prefix + "%(basename)s: %(message)s").format(record)]:
    the format string filled from the record, followed on a line of its own
    by the exception text when there is one. *)
Definition format (prefix : string) (record : LogRecord) : string :=
  let s := prefix +:+ basename record +:+ ": " +:+ message record in
  if String.eqb (exc_text record) EmptyString then s
  else (if ends_with_newline s then s else s +:+ newline) +:+ exc_text record.

(** Where the messages go: the dialogs of [mari.utils.message] and the
    lines printed to the script editor. *)
Record console : Type := Console {
  dialogs : list string;
  printed : list string
}.

(** [mari.utils.message(msg)] and [print msg] *)
Definition message_box (msg : string) : M console unit :=
  modify (λ c, Console (dialogs c ++ [msg]) (printed c)).
Definition print (msg : string) : M console unit :=
  modify (λ c, Console (dialogs c) (printed c ++ [msg])).

Definition _emit_log_message (record : LogRecord) : M console unit :=
  let formatter :=
    if levelno record <? INFO then format "Debug: Shotgun "
    else format "Shotgun " in
  let msg := formatter record in
  when (levelno record >=? ERROR) (message_box msg) ;;'
  print msg.

(** The records of a run, emitted one after the other. *)
Definition emit_all (records : list LogRecord) : M console unit :=
  for_each records _emit_log_message.

End Logging.

(** ** The engine life cycle: menus, events and start-up commands *)

Module Lifecycle.

(** What the start-up commands of a context depend on: the engine name,
    the commands the apps registered, the [run_at_startup] setting and what
    each callback does when called. *)
Record config : Type := Config {
  engine_name : string;
  commands : gmap string Startup.command;
  run_at_startup : list Startup.app_setting;
  behaviour : nat → result unit
}.

(** The calls made on the signal [mari.projects.opened]. *)
Inductive signal_call : Type := Connect | Disconnect.

#[global] Instance signal_call_eq_dec : EqDecision signal_call.
Proof. solve_decision. Defined.

(** The engine and the host around it: whether Mari runs in terminal mode,
    the Shotgun menus present in the Mari window (each named by the menu
    generator that built it), the attribute [self._menu_generator] (absent
    until [create_menu] sets it), the number of menu generators built so
    far, the calls made on the project-opened signal, and the log and
    invocations of the start-up dispatch. *)
Record engine : Type := Engine {
  inTerminalMode : bool;
  menus : list nat;
  _menu_generator : option nat;
  generators : nat;
  signal_calls : list signal_call;
  core : Startup.engine
}.

Definition has_ui : M engine bool := gets (λ e, negb (inTerminalMode e)).

(** Running a routine of the start-up dispatch inside the engine. *)
Definition lift_core {A} (c : M Startup.engine A) : M engine A :=
  λ e, let (r, core') := c (core e) in
       (r, Engine (inTerminalMode e) (menus e) (_menu_generator e) (generators e)
             (signal_calls e) core').

Definition log_debug (fmt : string) (args : list string) : M engine unit :=
  lift_core (Startup.emit (Log DEBUG fmt args)).

(** Modelled from the spec: the Menu Generator ([tk_mari.MenuGenerator], not
    part of [engine.py]) builds and destroys the toolkit menu inside the
    host window.  [self._menu_generator = tk_mari.MenuGenerator(self)]
    followed by [self._menu_generator.create_menu()]: a new generator, whose
    menu is added to the Mari window. *)
Definition new_menu : M engine unit :=
  modify (λ e, let g := S (generators e) in
               Engine (inTerminalMode e) (menus e ++ [g]) (Some g) g
                 (signal_calls e) (core e)).

(** [self._menu_generator.destroy_menu()]: the menu of the current
    generator goes; reading the attribute before it was ever set raises
    [AttributeError]. *)
Definition destroy_menu : M engine unit :=
  λ e, match _menu_generator e with
       | None =>
           (Raise (AttributeError
                     "'MariEngine' object has no attribute '_menu_generator'"), e)
       | Some g =>
           (Return tt,
            Engine (inTerminalMode e) (filter (λ m, m ≠ g) (menus e))
              (_menu_generator e) (generators e) (signal_calls e) (core e))
       end.

Definition signal (c : signal_call) : M engine unit :=
  modify (λ e, Engine (inTerminalMode e) (menus e) (_menu_generator e) (generators e)
                 (signal_calls e ++ [c]) (core e)).

Definition _run_app_instance_commands (cfg : config) : M engine unit :=
  lift_core (Startup._run_app_instance_commands (engine_name cfg) (commands cfg)
               (run_at_startup cfg) (behaviour cfg)).

Definition create_menu : M engine unit :=
  ui ←' has_ui ;
  when ui new_menu.

Definition post_app_init (cfg : config) : M engine unit :=
  create_menu ;;'
  signal Connect ;;'
  _run_app_instance_commands cfg.

Definition post_context_change (cfg : config) (new_context : nat) : M engine unit :=
  log_debug "tk-mari context changed to %s" [pretty new_context] ;;'
  ui ←' has_ui ;
  when ui destroy_menu ;;'
  create_menu ;;'
  _run_app_instance_commands cfg.

Definition destroy_engine : M engine unit :=
  log_debug "%s: Destroying..." [] ;;'
  ui ←' has_ui ;
  when ui destroy_menu ;;'
  signal Disconnect.

(** A series of context changes on one engine, each with the configuration
    of its context, whatever each one returns. *)
Fixpoint context_changes (changes : list (config * nat)) (e : engine) : engine :=
  match changes with
  | [] => e
  | (cfg, new_context) :: changes' =>
      context_changes changes' (post_context_change cfg new_context e).2
  end.

(** The menus of an engine that went through [post_app_init]: none in
    terminal mode, and with a user interface exactly the menu of the
    current generator. *)
Definition menu_in_place (e : engine) : Prop :=
  if inTerminalMode e then menus e = []
  else ∃ g, _menu_generator e = Some g ∧ menus e = [g] ∧ (g ≤ generators e)%nat.

(** The engine after [create_menu], after the log call of
    [post_context_change] and after that of [destroy_engine]. *)
Definition menu_after_create (e : engine) : engine :=
  if inTerminalMode e then e
  else Engine false (menus e ++ [S (generators e)]) (Some (S (generators e)))
         (S (generators e)) (signal_calls e) (core e).

Definition logged_change (new_context : nat) (e : engine) : engine :=
  Engine (inTerminalMode e) (menus e) (_menu_generator e) (generators e)
    (signal_calls e)
    (Startup.Engine
       (Startup.log (core e)
        ++ [Log DEBUG "tk-mari context changed to %s" [pretty new_context]])
       (Startup.invoked (core e))).

Definition logged_destroy (e : engine) : engine :=
  Engine (inTerminalMode e) (menus e) (_menu_generator e) (generators e)
    (signal_calls e)
    (Startup.Engine (Startup.log (core e) ++ [Log DEBUG "%s: Destroying..." []])
       (Startup.invoked (core e))).

End Lifecycle.

(** ** The project-saved handler *)

Module ProjectSaved.

(** A toolkit template, by the three methods the handler calls. *)
Record template : Type := Template {
  validate : string → bool;
  get_fields : string → gmap string value;
  apply_fields : gmap string value → result string
}.

(** A toolkit app, by the templates of its settings. *)
Record app : Type := App { get_template : string → template }.

(** What the handler reads: the metadata, name and version of the saved
    project, [self.apps] and [self.context.as_template_fields()]. *)
Record world : Type := World {
  saved_metadata : gmap string value;
  project_name : string;
  project_version : value;
  apps : gmap string app;
  context_fields : gmap string value
}.

(** What it writes: the log, and the paths handed to
    [mari.session.exportSession]. *)
Record engine : Type := Engine { log : list record; exported : list string }.

Definition emit (r : record) : M engine unit :=
  modify (λ s, Engine (log s ++ [r]) (exported s)).

Definition exportSession (path : string) : M engine unit :=
  modify (λ s, Engine (log s) (exported s ++ [path])).

(** The dictionary [fields] when it reaches [apply_fields]: the fields of
    the context, updated with those parsed from the project name, with the
    stored version under [version]. *)
Definition work_fields (w : world) (project_name_template : template)
    : gmap string value :=
  let fields := context_fields w in
  let fields := get_fields project_name_template (project_name w) ∪ fields in
  <["version" := project_version w]> fields.

Definition __on_project_saved (w : world) : M engine unit :=
  if bool_decide (saved_metadata w = ∅) then ret tt
  else
    match apps w !! "tk-multi-workfiles2", apps w !! "tk-mari-projectmanager" with
    | Some workfiles_app, Some proj_mgr_app =>
        let project_name_template :=
          get_template proj_mgr_app "template_new_project_name" in
        if negb (validate project_name_template (project_name w)) then ret tt
        else
          let fields := work_fields w project_name_template in
          let work_template := get_template workfiles_app "template_work" in
          work_file_path ←' (λ s, (apply_fields work_template fields, s)) ;
          emit (Log DEBUG "Exporting mari session file to: %s" [work_file_path]) ;;'
          exportSession work_file_path
    | _, _ =>
        emit (Log Py.ERROR
                "Unable to find workfiles or projectmanager app. Not exporting msf file."
                [])
    end.

End ProjectSaved.

(** * Properties *)

(** ** Evaluating the monad *)

Ltac run_monad :=
  cbv [bind ret raise gets modify when try_except_TankError] in *; cbn [fst snd] in *.

(** ** [host_info] *)

(** C10: [host_info] always returns a dictionary whose name is "Mari"; its
    version is the "major.minor.revision" string of the host when the
    version query succeeds and "unknown" when the query raises, whatever
    the exception; the property itself never raises. *)
Theorem host_info_total (app_version : result version) :
  ∃ d : gmap string string,
    HostInfo.host_info app_version = Return d
    ∧ d !! "name" = Some "Mari"
    ∧ dom d = {[ "name"; "version" ]}
    ∧ d !! "version" =
        Some match app_version with
             | Return v =>
                 pretty (major v) +:+ "." +:+ pretty (minor v) +:+ "."
                 +:+ pretty (revision v)
             | Raise _ => "unknown"
             end.
Proof.
  unfold HostInfo.host_info. eexists; split; [reflexivity|].
  destruct app_version as [v|e]; repeat split; by simplify_map_eq.
Qed.

Example host_info_4_1_2 :
  HostInfo.host_info (Return (Version 4 1 2))
  = Return (<["version" := "4.1.2"]> (<["name" := "Mari"]> ∅)).
Proof. vm_compute. reflexivity. Qed.

(** ** [pre_app_init] *)

Section pre_app_init.
Import PreAppInit.

Lemma below_minimum_spec v : below_minimum v = true ↔ below_2_6 v.
Proof.
  unfold below_minimum, below_2_6, MIN_VERSION; cbn [fst snd].
  rewrite orb_true_iff, andb_true_iff, !Z.ltb_lt, Z.eqb_eq. tauto.
Qed.

Lemma above_maximum_spec v : above_maximum v = true ↔ above_4_2 v.
Proof.
  unfold above_maximum, above_4_2, MAX_VERSION; cbn [fst snd].
  rewrite orb_true_iff, andb_true_iff, !Z.gtb_ltb, !Z.ltb_lt, Z.eqb_eq. tauto.
Qed.

Lemma supported_not_below v : at_least_2_6_1 v → below_minimum v = false.
Proof.
  intros H. apply not_true_is_false. rewrite below_minimum_spec.
  unfold at_least_2_6_1, below_2_6 in *. lia.
Qed.

Lemma tested_not_above v : at_most_4_2 v → above_maximum v = false.
Proof.
  intros H. apply not_true_is_false. rewrite above_maximum_spec.
  unfold at_most_4_2, above_4_2 in *. lia.
Qed.

Lemma dialog_test h s v :
  has_ui h
  && negb (bool_decide (SGTK_MARI_VERSION_WARNING_SHOWN ∈ dom (environ s)))
  && (major v >=? compatibility_dialog_min_version h)
  = bool_decide (dialog_due h s v).
Proof.
  unfold dialog_due, has_ui. apply eq_true_iff_eq.
  rewrite !andb_true_iff, !negb_true_iff, bool_decide_eq_true,
    bool_decide_eq_false, Z.geb_le. tauto.
Qed.

(** One engine start, in closed form. *)
Lemma pre_app_init_unfold h s :
  pre_app_init h s =
  let dbg := Log DEBUG "%s: Initializing..." [] in
  match app_version h with
  | Raise e => (Raise e, State (environ s) (messages s) (log s ++ [dbg]) (managers_cached s))
  | Return v =>
      if below_minimum v then
        (Raise (TankError (unsupported_message v)),
         State (environ s) (messages s) (log s ++ [dbg]) (managers_cached s))
      else if above_maximum v then
        let msg := untested_message v in
        if bool_decide (dialog_due h s v) then
          (Return tt,
           State (<[SGTK_MARI_VERSION_WARNING_SHOWN := "1"]> (environ s))
             (messages s ++ [(msg, "Shotgun")])
             (log s ++ [dbg] ++ [Log WARNING msg []]) true)
        else
          (Return tt,
           State (environ s) (messages s) (log s ++ [dbg] ++ [Log WARNING msg []]) true)
      else
        (Return tt, State (environ s) (messages s) (log s ++ [dbg]) true)
  end.
Proof.
  unfold pre_app_init, emit, message, setenv, cache_managers. run_monad.
  destruct (app_version h) as [v|e]; [|reflexivity].
  destruct (below_minimum v); [reflexivity|].
  destruct (above_maximum v); [|reflexivity].
  cbn [environ]. rewrite dialog_test.
  destruct (bool_decide (dialog_due h s v)); cbn; by rewrite <- ?app_assoc.
Qed.

(** Once the flag is in the environment it stays, and no dialog opens. *)
Lemma flag_set_quiet h s :
  SGTK_MARI_VERSION_WARNING_SHOWN ∈ dom (environ s) →
  SGTK_MARI_VERSION_WARNING_SHOWN ∈ dom (environ (pre_app_init h s).2)
  ∧ messages (pre_app_init h s).2 = messages s.
Proof.
  intros Hflag. rewrite pre_app_init_unfold. cbn zeta.
  destruct (app_version h) as [v|e]; [|done].
  destruct (below_minimum v); [done|].
  destruct (above_maximum v); [|done].
  rewrite bool_decide_eq_false_2; [done|]. intros (_ & Hno & _). done.
Qed.

(** A start opens at most one dialog, and sets the flag when it does. *)
Lemma dialog_sets_flag h s :
  messages (pre_app_init h s).2 = messages s
  ∨ (length (messages (pre_app_init h s).2) = S (length (messages s))
     ∧ SGTK_MARI_VERSION_WARNING_SHOWN ∈ dom (environ (pre_app_init h s).2)).
Proof.
  rewrite pre_app_init_unfold. cbn zeta.
  destruct (app_version h) as [v|e]; [|by left].
  destruct (below_minimum v); [by left|].
  destruct (above_maximum v); [|by left].
  destruct (bool_decide (dialog_due h s v)); [right|by left].
  cbn. rewrite length_app, dom_insert_L. split; [cbn; lia|set_solver].
Qed.

Lemma starts_flag_set hs s :
  SGTK_MARI_VERSION_WARNING_SHOWN ∈ dom (environ s) →
  messages (starts hs s) = messages s.
Proof.
  revert s. induction hs as [|h hs IH]; intros s Hflag; [done|].
  cbn [starts]. destruct (flag_set_quiet h s Hflag) as [Hflag' Hsame].
  rewrite IH by done. done.
Qed.

Lemma starts_at_most_one_dialog hs s :
  (length (messages (starts hs s)) ≤ S (length (messages s)))%nat.
Proof.
  revert s. induction hs as [|h hs IH]; intros s; cbn [starts]; [lia|].
  destruct (dialog_sets_flag h s) as [Hsame|[Hlen Hflag]].
  - specialize (IH (pre_app_init h s).2). rewrite Hsame in IH. done.
  - rewrite starts_flag_set by done. lia.
Qed.

End pre_app_init.

(** C4: engine construction fails with the unsupported-version error for
    every version below (2,6); it succeeds, silently, from (2,6,1) up to
    (4,2); above (4,2) it succeeds and logs a warning, and opens the
    warning dialog exactly when there is a user interface, the flag
    SGTK_MARI_VERSION_WARNING_SHOWN is not yet in the environment and the
    major version reaches the setting compatibility_dialog_min_version,
    setting the flag as it does; over any series of engine starts in one
    process, at most one dialog is opened. *)
Theorem pre_app_init_version_gate (h : PreAppInit.host) (s : PreAppInit.state)
    (v : version) :
  PreAppInit.app_version h = Return v →
  let r := PreAppInit.pre_app_init h s in
  (PreAppInit.below_2_6 v →
     r.1 = Raise (TankError (PreAppInit.unsupported_message v))
     ∧ PreAppInit.messages r.2 = PreAppInit.messages s
     ∧ PreAppInit.managers_cached r.2 = PreAppInit.managers_cached s)
  ∧ (PreAppInit.at_least_2_6_1 v → PreAppInit.at_most_4_2 v →
     r.1 = Return tt
     ∧ PreAppInit.messages r.2 = PreAppInit.messages s
     ∧ PreAppInit.environ r.2 = PreAppInit.environ s
     ∧ PreAppInit.log r.2
       = PreAppInit.log s ++ [Log DEBUG "%s: Initializing..." []])
  ∧ (PreAppInit.above_4_2 v →
     r.1 = Return tt
     ∧ PreAppInit.log r.2
       = PreAppInit.log s ++ [Log DEBUG "%s: Initializing..." []]
           ++ [Log WARNING (PreAppInit.untested_message v) []]
     ∧ (PreAppInit.dialog_due h s v →
        PreAppInit.messages r.2
        = PreAppInit.messages s ++ [(PreAppInit.untested_message v, "Shotgun")]
        ∧ PreAppInit.environ r.2
          = <[PreAppInit.SGTK_MARI_VERSION_WARNING_SHOWN := "1"]> (PreAppInit.environ s))
     ∧ (¬ PreAppInit.dialog_due h s v →
        PreAppInit.messages r.2 = PreAppInit.messages s
        ∧ PreAppInit.environ r.2 = PreAppInit.environ s))
  ∧ (∀ hs s0,
       (length (PreAppInit.messages (PreAppInit.starts hs s0))
        ≤ S (length (PreAppInit.messages s0)))%nat).
Proof.
  intros Hv r. subst r. rewrite pre_app_init_unfold, Hv. cbn zeta.
  split; [|split; [|split]].
  - intros Hlow. apply below_minimum_spec in Hlow. by rewrite Hlow.
  - intros Hmin Hmax.
    by rewrite (supported_not_below _ Hmin), (tested_not_above _ Hmax).
  - intros Habove.
    assert (PreAppInit.below_minimum v = false) as ->.
    { apply supported_not_below.
      unfold PreAppInit.above_4_2, PreAppInit.at_least_2_6_1 in *. lia. }
    apply above_maximum_spec in Habove. rewrite Habove.
    case_bool_decide; repeat split; try done; intros; done.
  - apply starts_at_most_one_dialog.
Qed.

(** ** The project-opened handler *)

Section project_opened.
Import ProjectOpened.

(** The handler in closed form, one line per way out. *)
Lemma on_project_opened_unfold tk p is_new s :
  __on_project_opened tk p is_new s =
  if is_new then (Return tt, s)
  else
    let md := project_metadata s p in
    let s1 := logged opened_log s in
    if bool_decide (md = ∅) then
      (Return tt,
       logged (Log DEBUG "Work area unchanged - the opened project is not Shotgun aware!" []) s1)
    else
      let s2 := after_stamp p s1 in
      match ctx_entity md with
      | None =>
          (Return tt,
           logged (Log DEBUG
             "Work area unchanged - failed to determine a context for the opened project!" [])
             s2)
      | Some e =>
          match context_from_entity tk (etype e) (eid e) with
          | Raise (TankError msg) =>
              (Return tt,
               logged (Log ERROR
                 "Work area unchanged - Failed to create context from '%s %s': %s"
                 [str (etype e); str (eid e); msg]) s2)
          | Raise x => (Raise x, s2)
          | Return c =>
              if decide (c = context s) then (Return tt, s2)
              else
                change_context tk c
                  (logged (Log DEBUG "Changing the engine context to Work Area: %s"
                             [pretty c]) s2)
          end
      end.
Proof.
  unfold __on_project_opened, get_project_metadata, get_project_version,
    set_project_version, log_debug, log_error, emit, after_stamp.
  run_monad. destruct is_new; [reflexivity|]. cbn zeta.
  change (project_metadata (logged _ s) p) with (project_metadata s p).
  destruct (bool_decide _); [reflexivity|].
  destruct (truthy _); cbn [negb];
    (destruct (ctx_entity _) as [e|]; [|reflexivity]);
    destruct (context_from_entity tk _ _) as [c|[]]; try reflexivity;
    cbn [context logged versioned]; destruct (decide _); reflexivity.
Qed.

Lemma get_delete_ne (md : gmap string value) k k' :
  k ≠ k' → get (delete k md) k' = get md k'.
Proof. intros. unfold get. by rewrite lookup_delete_ne. Qed.

Lemma get_delete_eq (md : gmap string value) k : get (delete k md) k = VNone.
Proof. unfold get. by rewrite lookup_delete_eq. Qed.

Lemma get_insert_ne (md : gmap string value) k k' v :
  k ≠ k' → get (<[k := v]> md) k' = get md k'.
Proof. intros. unfold get. by rewrite lookup_insert_ne. Qed.

Lemma get_insert_eq (md : gmap string value) k v : get (<[k := v]> md) k = v.
Proof. unfold get. by rewrite lookup_insert_eq. Qed.

(** Deleting a key whose value tests false does not change the choice. *)
Lemma ctx_entity_delete_falsy md k :
  truthy (get md k) = false → ctx_entity (delete k md) = ctx_entity md.
Proof.
  intros Hk. unfold ctx_entity.
  assert (∀ k', truthy (get (delete k md) k') = truthy (get md k')
                ∧ (truthy (get md k') = true → get (delete k md) k' = get md k'))
    as Hget.
  { intros k'. destruct (decide (k = k')) as [<-|Hne].
    - rewrite get_delete_eq, Hk. done.
    - by rewrite get_delete_ne. }
  destruct (Hget "task_id") as [-> Ht], (Hget "entity_id") as [-> Hi],
    (Hget "entity_type") as [-> Hy], (Hget "project_id") as [-> Hp].
  destruct (truthy (get md "task_id")); [by rewrite Ht|].
  destruct (truthy (get md "entity_id")), (truthy (get md "entity_type"));
    cbn [andb]; rewrite ?Hi, ?Hy by done; try done;
    (destruct (truthy (get md "project_id")); [by rewrite Hp|done]).
Qed.

Lemma log_after_stamp p s : log (after_stamp p s) = log s.
Proof. unfold after_stamp. by destruct (truthy _). Qed.

(** What a run of the handler does to the stored metadata. *)
Lemma on_project_opened_metadata tk p is_new s :
  metadata (__on_project_opened tk p is_new s).2 =
  if is_new || bool_decide (project_metadata s p = ∅) then metadata s
  else metadata (after_stamp p s).
Proof.
  rewrite on_project_opened_unfold. destruct is_new; [done|]. cbn zeta.
  destruct (bool_decide _); [done|]. cbn [orb].
  assert (∀ r, metadata (after_stamp p (logged r s)) = metadata (after_stamp p s))
    as Hlog.
  { intros r. unfold after_stamp.
    change (project_metadata (logged r s) p) with (project_metadata s p).
    by destruct (truthy _). }
  destruct (ctx_entity _) as [e|]; [|apply Hlog].
  destruct (context_from_entity tk _ _) as [c|[]]; try apply Hlog.
  destruct (decide _); [apply Hlog|].
  unfold change_context. destruct (change_context_outcome tk c); apply Hlog.
Qed.

(** The handler never touches the context or asks for a switch unless the
    resolver produced a context that differs from the current one. *)
Lemma on_project_opened_frame tk p is_new s :
  let r := __on_project_opened tk p is_new s in
  (∀ e c, ctx_entity (project_metadata s p) = Some e →
          context_from_entity tk (etype e) (eid e) = Return c →
          c = context s ∨ is_new = true ∨ project_metadata s p = ∅) →
  context r.2 = context s ∧ switches r.2 = switches s.
Proof.
  cbn zeta. rewrite on_project_opened_unfold. destruct is_new; [done|]. cbn zeta.
  case_bool_decide as Hmd; [done|].
  assert (∀ r, context (after_stamp p (logged r s)) = context s
               ∧ switches (after_stamp p (logged r s)) = switches s) as Hlog.
  { intros r. unfold after_stamp. by destruct (truthy _). }
  destruct (ctx_entity _) as [e|]; [|intros _; apply Hlog].
  destruct (context_from_entity tk _ _) as [c|[]] eqn:Hc; try (intros _; apply Hlog).
  intros H. destruct (H e c eq_refl Hc) as [->|[?|?]]; try done.
  rewrite decide_True by done. apply Hlog.
Qed.

End project_opened.

(** The three productive branches of the chain, shared by the statements
    below. *)
Lemma priority_chain_cases (md : gmap string value) :
  (ProjectOpened.present md "task_id" →
     ProjectOpened.ctx_entity md
     = Some (ProjectOpened.Entity (VStr "Task") (get md "task_id")))
  ∧ (¬ ProjectOpened.present md "task_id" →
     ProjectOpened.present md "entity_id" →
     ProjectOpened.present md "entity_type" →
     ProjectOpened.ctx_entity md
     = Some (ProjectOpened.Entity (get md "entity_type") (get md "entity_id")))
  ∧ (¬ ProjectOpened.present md "task_id" →
     ¬ (ProjectOpened.present md "entity_id" ∧ ProjectOpened.present md "entity_type") →
     ProjectOpened.present md "project_id" →
     ProjectOpened.ctx_entity md
     = Some (ProjectOpened.Entity (VStr "Project") (get md "project_id"))).
Proof.
  unfold ProjectOpened.present, ProjectOpened.ctx_entity.
  split; [|split].
  - by intros ->.
  - intros Ht -> ->. by apply not_true_is_false in Ht as ->.
  - intros Ht He ->. apply not_true_is_false in Ht as ->.
    destruct (truthy (get md "entity_id")), (truthy (get md "entity_type"));
      try done. by destruct He.
Qed.

(** C1: the context entity follows a strict priority.  With task_id
    present the reference is (Task, task_id); otherwise, with entity_id and
    entity_type both present, it is (entity_type, entity_id); otherwise,
    with project_id present, it is (Project, project_id).  Metadata holding
    task_id = 7 resolves to (Task, 7) whatever else it holds.  When none
    applies the handler returns without deriving an entity, and neither
    changes the context nor asks for a context switch.  A key is present
    when [md.get(key)] is true, the test the handler applies. *)
Theorem ctx_entity_priority (md : gmap string value) :
  (ProjectOpened.present md "task_id" →
     ProjectOpened.ctx_entity md
     = Some (ProjectOpened.Entity (VStr "Task") (get md "task_id")))
  ∧ (¬ ProjectOpened.present md "task_id" →
     ProjectOpened.present md "entity_id" →
     ProjectOpened.present md "entity_type" →
     ProjectOpened.ctx_entity md
     = Some (ProjectOpened.Entity (get md "entity_type") (get md "entity_id")))
  ∧ (¬ ProjectOpened.present md "task_id" →
     ¬ (ProjectOpened.present md "entity_id" ∧ ProjectOpened.present md "entity_type") →
     ProjectOpened.present md "project_id" →
     ProjectOpened.ctx_entity md
     = Some (ProjectOpened.Entity (VStr "Project") (get md "project_id")))
  ∧ (md !! "task_id" = Some (VInt 7) →
     ProjectOpened.ctx_entity md
     = Some (ProjectOpened.Entity (VStr "Task") (VInt 7)))
  ∧ (¬ ProjectOpened.present md "task_id" →
     ¬ (ProjectOpened.present md "entity_id" ∧ ProjectOpened.present md "entity_type") →
     ¬ ProjectOpened.present md "project_id" →
     ProjectOpened.ctx_entity md = None
     ∧ ∀ tk p is_new s,
         ProjectOpened.project_metadata s p = md →
         let r := ProjectOpened.__on_project_opened tk p is_new s in
         r.1 = Return tt
         ∧ ProjectOpened.context r.2 = ProjectOpened.context s
         ∧ ProjectOpened.switches r.2 = ProjectOpened.switches s).
Proof.
  destruct (priority_chain_cases md) as (Htask & Hentity & Hproject).
  split; [exact Htask|]. split; [exact Hentity|]. split; [exact Hproject|].
  split.
  - intros H7.
    assert (get md "task_id" = VInt 7) as Hget by (unfold get; by rewrite H7).
    rewrite <- Hget. apply Htask. unfold ProjectOpened.present. by rewrite Hget.
  - intros Ht He Hp.
    assert (ProjectOpened.ctx_entity md = None) as Hnone.
    { unfold ProjectOpened.present in *. unfold ProjectOpened.ctx_entity.
      apply not_true_is_false in Ht as ->. apply not_true_is_false in Hp as ->.
      destruct (truthy (get md "entity_id")), (truthy (get md "entity_type"));
        try done. by destruct He. }
    split; [exact Hnone|]. intros tk p is_new s Hmd. cbn zeta.
    split.
    + rewrite on_project_opened_unfold. destruct is_new; [done|]. cbn zeta.
      destruct (bool_decide _); [done|]. by rewrite Hmd, Hnone.
    + apply on_project_opened_frame. intros e c He'. rewrite Hmd, Hnone in He'. done.
Qed.

(** C1, on an example: all four keys stored, the task wins. *)
Example ctx_entity_task_7 :
  ProjectOpened.ctx_entity
    {[ "task_id" := VInt 7; "entity_id" := VInt 3; "entity_type" := VStr "Asset";
       "project_id" := VInt 65 ]}
  = Some (ProjectOpened.Entity (VStr "Task") (VInt 7)).
Proof. vm_compute. reflexivity. Qed.

(** C6: opening a project without stored toolkit metadata, or a newly
    created project, returns normally and leaves the active context, the
    stored metadata and the list of requested context switches as they
    were; without metadata this holds for either value of the is_new
    flag. *)
Theorem on_project_opened_unmanaged (tk : ProjectOpened.sgtk)
    (p : ProjectOpened.project) (is_new : bool) (s : ProjectOpened.engine) :
  is_new = true ∨ ProjectOpened.project_metadata s p = ∅ →
  let r := ProjectOpened.__on_project_opened tk p is_new s in
  r.1 = Return tt ∧ ProjectOpened.same_but_log s r.2.
Proof.
  intros H. cbn zeta. rewrite on_project_opened_unfold.
  destruct is_new; [done|]. destruct H as [?|Hmd]; [done|].
  cbn zeta. rewrite bool_decide_eq_true_2 by done. done.
Qed.

(** C5, as stated, fails: the version is not written only when it is
    absent, and not for every project that has metadata.  A stored version
    that tests false (0, the empty string) is overwritten with 1, and a new
    project, for which the handler returns at once, is not stamped even
    when its metadata lacks a version. *)
Lemma version_stamp_overwrites_and_skips :
  let tk := ProjectOpened.Sgtk (λ _ _, Return 1%nat) (λ _, Return tt) in
  let s := ProjectOpened.Engine 1%nat
             {[ 0%nat := {[ "task_id" := VInt 7; "version" := VInt 0 ]};
                1%nat := {[ "task_id" := VInt 7; "version" := VStr EmptyString ]};
                2%nat := {[ "task_id" := VInt 7 ]} ]} [] [] in
  ProjectOpened.project_metadata
    (ProjectOpened.__on_project_opened tk 0%nat false s).2 0%nat !! "version"
  = Some (VInt 1)
  ∧ ProjectOpened.project_metadata
      (ProjectOpened.__on_project_opened tk 1%nat false s).2 1%nat !! "version"
    = Some (VInt 1)
  ∧ ProjectOpened.project_metadata
      (ProjectOpened.__on_project_opened tk 2%nat true s).2 2%nat !! "version"
    = None
  ∧ ¬ (∀ tk0 p is_new s0,
         let md := ProjectOpened.project_metadata s0 p in
         let md' :=
           ProjectOpened.project_metadata
             (ProjectOpened.__on_project_opened tk0 p is_new s0).2 p in
         md ≠ ∅ →
         (md !! "version" = None → md' !! "version" = Some (VInt 1))
         ∧ (is_Some (md !! "version") → md' = md)).
Proof.
  cbn zeta. split; [vm_compute; reflexivity|]. split; [vm_compute; reflexivity|].
  split; [vm_compute; reflexivity|].
  intros H.
  destruct (H (ProjectOpened.Sgtk (λ _ _, Return 1%nat) (λ _, Return tt)) 0%nat false
              (ProjectOpened.Engine 1%nat
                 {[ 0%nat := {[ "task_id" := VInt 7; "version" := VInt 0 ]} ]} [] []))
    as [_ Hkeep]; [vm_compute; discriminate|].
  assert (is_Some (({[ "task_id" := VInt 7; "version" := VInt 0 ]} : gmap string value)
                     !! "version")) as Hsome by (vm_compute; eauto).
  apply Hkeep, (f_equal (λ md, md !! "version")) in Hsome.
  vm_compute in Hsome. discriminate.
Qed.

(** C5, amended: for an opened project that carries toolkit metadata, a new
    project is left as it is (the handler returns at once).  For a project
    that is not new the handler stamps version 1 when [get_project_version]
    tests false: the version key is missing, or it holds None, 0 or the
    empty string, which are overwritten.  It writes nothing when the stored
    version tests true: a stored version 5 stays 5.  Other projects are
    never written, and a second run of the handler leaves the metadata of
    the first run as it is. *)
Theorem version_stamp (tk : ProjectOpened.sgtk) (p : ProjectOpened.project)
    (is_new : bool) (s : ProjectOpened.engine) :
  let md := ProjectOpened.project_metadata s p in
  md ≠ ∅ →
  let s' := (ProjectOpened.__on_project_opened tk p is_new s).2 in
  (is_new = true → ProjectOpened.metadata s' = ProjectOpened.metadata s)
  ∧ (is_new = false →
     (md !! "version" = None →
        ProjectOpened.project_metadata s' p = <["version" := VInt 1]> md)
     ∧ (¬ ProjectOpened.present md "version" →
        ProjectOpened.project_metadata s' p = <["version" := VInt 1]> md)
     ∧ (md !! "version" = Some VNone ∨ md !! "version" = Some (VInt 0)
        ∨ md !! "version" = Some (VStr EmptyString) →
        ProjectOpened.project_metadata s' p !! "version" = Some (VInt 1))
     ∧ (ProjectOpened.present md "version" →
        ProjectOpened.metadata s' = ProjectOpened.metadata s)
     ∧ (md !! "version" = Some (VInt 5) →
        ProjectOpened.metadata s' = ProjectOpened.metadata s
        ∧ ProjectOpened.project_metadata s' p !! "version" = Some (VInt 5)))
  ∧ (∀ q, q ≠ p → ProjectOpened.metadata s' !! q = ProjectOpened.metadata s !! q)
  ∧ (∀ tk', ProjectOpened.metadata (ProjectOpened.__on_project_opened tk' p is_new s').2
            = ProjectOpened.metadata s').
Proof.
  intros md Hmd s'.
  assert (ProjectOpened.metadata s'
          = if is_new then ProjectOpened.metadata s
            else ProjectOpened.metadata (ProjectOpened.after_stamp p s)) as Hs'.
  { subst s'. rewrite on_project_opened_metadata.
    destruct is_new; [done|]. cbn [orb]. by rewrite bool_decide_eq_false_2. }
  clearbody s'. destruct is_new.
  { split; [done|]. split; [done|]. split; [by rewrite Hs'|].
    intros tk'. by rewrite on_project_opened_metadata. }
  assert (∀ q, ProjectOpened.project_metadata s' q
               = ProjectOpened.project_metadata (ProjectOpened.after_stamp p s) q)
    as Hpm.
  { intros q. unfold ProjectOpened.project_metadata. by rewrite Hs'. }
  assert (¬ ProjectOpened.present md "version" →
          ProjectOpened.project_metadata s' p = <["version" := VInt 1]> md) as Hstamp.
  { intros Hv. rewrite Hpm. unfold ProjectOpened.after_stamp.
    apply not_true_is_false in Hv. fold md. rewrite Hv.
    unfold ProjectOpened.project_metadata at 1, ProjectOpened.versioned.
    cbn [ProjectOpened.metadata]. by rewrite lookup_insert_eq. }
  assert (ProjectOpened.present md "version" →
          ProjectOpened.metadata s' = ProjectOpened.metadata s) as Hkeep.
  { intros Hv. rewrite Hs'. unfold ProjectOpened.after_stamp. fold md.
    unfold ProjectOpened.present in Hv. by rewrite Hv. }
  split; [done|]. split; [intros _|split].
  - split; [|split; [|split; [|split]]].
    + intros Hnone. apply Hstamp. unfold ProjectOpened.present, get. by rewrite Hnone.
    + exact Hstamp.
    + intros Hfalse. rewrite Hstamp; [by rewrite lookup_insert_eq|].
      unfold ProjectOpened.present, get. by destruct Hfalse as [->|[->| ->]].
    + exact Hkeep.
    + intros H5.
      assert (ProjectOpened.present md "version") as Hv.
      { unfold ProjectOpened.present, get. by rewrite H5. }
      split; [by apply Hkeep|].
      unfold ProjectOpened.project_metadata. rewrite (Hkeep Hv). exact H5.
  - intros q Hq. rewrite Hs'. unfold ProjectOpened.after_stamp.
    destruct (truthy _); [done|].
    unfold ProjectOpened.versioned. cbn [ProjectOpened.metadata].
    by rewrite lookup_insert_ne.
  - intros tk'. rewrite on_project_opened_metadata. cbn [orb].
    destruct (decide (ProjectOpened.present md "version")) as [Hv|Hv].
    + assert (ProjectOpened.project_metadata s' p = md) as Hsame.
      { unfold ProjectOpened.project_metadata. by rewrite (Hkeep Hv). }
      rewrite Hsame, bool_decide_eq_false_2 by done.
      unfold ProjectOpened.after_stamp. rewrite Hsame.
      unfold ProjectOpened.present in Hv. by rewrite Hv.
    + rewrite (Hstamp Hv), bool_decide_eq_false_2 by apply insert_non_empty.
      unfold ProjectOpened.after_stamp. rewrite (Hstamp Hv).
      by rewrite get_insert_eq.
Qed.

(** C9: the priority chain tests the value stored under a key, not the key.
    A key whose value tests false (0, the empty string, None, False) can be
    deleted without changing the entity derived; with task_id equal to 0 or
    to the empty string the chain falls through to the entity_id and
    entity_type case, and with entity_id equal to 0 it falls through to the
    project_id case. *)
Theorem ctx_entity_truthiness (md : gmap string value) :
  (∀ key, ¬ ProjectOpened.present md key →
     ProjectOpened.ctx_entity md = ProjectOpened.ctx_entity (delete key md))
  ∧ (md !! "task_id" = Some (VInt 0) ∨ md !! "task_id" = Some (VStr EmptyString) →
     ProjectOpened.present md "entity_id" →
     ProjectOpened.present md "entity_type" →
     ProjectOpened.ctx_entity md
     = Some (ProjectOpened.Entity (get md "entity_type") (get md "entity_id")))
  ∧ (¬ ProjectOpened.present md "task_id" →
     md !! "entity_id" = Some (VInt 0) →
     ProjectOpened.present md "project_id" →
     ProjectOpened.ctx_entity md
     = Some (ProjectOpened.Entity (VStr "Project") (get md "project_id"))).
Proof.
  split; [|split].
  - intros key Hkey. symmetry. apply ctx_entity_delete_falsy.
    by apply not_true_is_false.
  - intros H0 Hi Hy.
    apply (proj1 (proj2 (priority_chain_cases md))); [|done..].
    unfold ProjectOpened.present, get. by destruct H0 as [-> | ->].
  - intros Ht H0 Hp.
    apply (proj2 (proj2 (priority_chain_cases md))); [done| |done].
    unfold ProjectOpened.present at 1, get. rewrite H0. by intros [? _].
Qed.

(** C3, as stated, fails: the handler lets an exception through when the
    context switch raises, and when the resolver raises anything other than
    a TankError. *)
Lemma on_project_opened_can_raise :
  let s := ProjectOpened.Engine 1%nat
             {[ 0%nat := {[ "task_id" := VInt 7; "version" := VInt 1 ]} ]} [] [] in
  let switch_fails :=
    ProjectOpened.Sgtk (λ _ _, Return 2%nat)
      (λ _, Raise (TankError "context change failed")) in
  let resolver_fails :=
    ProjectOpened.Sgtk (λ _ _, Raise (OtherError "Fault" "connection lost"))
      (λ _, Return tt) in
  (ProjectOpened.__on_project_opened switch_fails 0%nat false s).1
  = Raise (TankError "context change failed")
  ∧ (ProjectOpened.__on_project_opened resolver_fails 0%nat false s).1
    = Raise (OtherError "Fault" "connection lost")
  ∧ ¬ (∀ tk p is_new s0,
         ¬ raises (ProjectOpened.__on_project_opened tk p is_new s0).1).
Proof.
  cbn zeta. split; [vm_compute; reflexivity|]. split; [vm_compute; reflexivity|].
  intros H.
  apply (H (ProjectOpened.Sgtk (λ _ _, Return 2%nat)
              (λ _, Raise (TankError "context change failed")))
           0%nat false
           (ProjectOpened.Engine 1%nat
              {[ 0%nat := {[ "task_id" := VInt 7; "version" := VInt 1 ]} ]} [] [])).
  vm_compute. exact I.
Qed.

(** C3, amended: on each of its abort paths (a new project, no metadata, no
    entity to derive, the resolver raising TankError) the handler returns
    normally, leaves the current context alone, requests no context switch
    and only adds to the log, apart from the version it may have stamped on
    the opened project before.  It raises exactly when the resolver raises
    something other than TankError, or when the switch to a context that
    differs from the current one raises. *)
Theorem on_project_opened_abort_paths (tk : ProjectOpened.sgtk)
    (p : ProjectOpened.project) (is_new : bool) (s : ProjectOpened.engine) :
  let md := ProjectOpened.project_metadata s p in
  let r := ProjectOpened.__on_project_opened tk p is_new s in
  (ProjectOpened.aborts tk p is_new s →
     r.1 = Return tt
     ∧ ProjectOpened.context r.2 = ProjectOpened.context s
     ∧ ProjectOpened.switches r.2 = ProjectOpened.switches s
     ∧ (∃ l, ProjectOpened.log r.2 = ProjectOpened.log s ++ l)
     ∧ (ProjectOpened.metadata r.2 = ProjectOpened.metadata s
        ∨ ProjectOpened.metadata r.2
          = <[p := <["version" := VInt 1]> md]> (ProjectOpened.metadata s)))
  ∧ (∀ x, r.1 = Raise x ↔
       is_new = false ∧ md ≠ ∅
       ∧ ∃ e, ProjectOpened.ctx_entity md = Some e
           ∧ ((ProjectOpened.context_from_entity tk (ProjectOpened.etype e)
                 (ProjectOpened.eid e) = Raise x
               ∧ ∀ msg, x ≠ TankError msg)
              ∨ ∃ c, ProjectOpened.context_from_entity tk (ProjectOpened.etype e)
                       (ProjectOpened.eid e) = Return c
                     ∧ c ≠ ProjectOpened.context s
                     ∧ ProjectOpened.change_context_outcome tk c = Raise x)).
Proof.
  intros md r. split.
  - intros Habort.
    assert (ProjectOpened.context r.2 = ProjectOpened.context s
            ∧ ProjectOpened.switches r.2 = ProjectOpened.switches s) as [Hc Hsw].
    { apply on_project_opened_frame. intros e c He Hres.
      destruct Habort as [?|[?|[Hnone|(e' & msg & He' & Hres')]]]; auto;
        congruence. }
    assert (ProjectOpened.metadata r.2 = ProjectOpened.metadata s
            ∨ ProjectOpened.metadata r.2
              = <[p := <["version" := VInt 1]> md]> (ProjectOpened.metadata s)) as Hmeta.
    { subst r. rewrite on_project_opened_metadata.
      destruct (_ || _); [by left|]. unfold ProjectOpened.after_stamp.
      destruct (truthy _); [by left|by right]. }
    assert (r.1 = Return tt
            ∧ ∃ l, ProjectOpened.log r.2 = ProjectOpened.log s ++ l) as [Hr Hl];
      [|done].
    subst r md. rewrite on_project_opened_unfold.
    destruct is_new; [split; [done|by exists []; rewrite app_nil_r]|]. cbn zeta.
    case_bool_decide as Hmd.
    { split; [done|]. cbn. rewrite <- app_assoc. by eexists. }
    destruct Habort as [?|[?|[Hnone|(e' & msg & He' & Hres')]]]; try done.
    + rewrite Hnone. split; [done|]. cbn. rewrite log_after_stamp. cbn.
      rewrite <- app_assoc. by eexists.
    + rewrite He', Hres'. split; [done|]. cbn. rewrite log_after_stamp. cbn.
      rewrite <- app_assoc. by eexists.
  - intros x. subst r md. rewrite on_project_opened_unfold.
    destruct is_new; [by split; [|intros [? _]]|]. cbn zeta.
    case_bool_decide as Hmd; [by split; [|intros (_ & ? & _)]|].
    destruct (ProjectOpened.ctx_entity _) as [e|];
      [|by split; [|intros (_ & _ & ? & ? & _)]].
    destruct (ProjectOpened.context_from_entity tk _ _) as [c|y] eqn:Hres.
    + destruct (decide (c = ProjectOpened.context s)) as [Heq|Hne].
      * split; [done|].
        intros (_ & _ & e' & ? & [[? _]|(c' & ? & ? & _)]); simplify_eq; congruence.
      * unfold ProjectOpened.change_context.
        destruct (ProjectOpened.change_context_outcome tk c) as [[]|z] eqn:Hsw;
          cbn [fst].
        -- split; [done|].
           intros (_ & _ & e' & ? & [[? _]|(c' & ? & ? & ?)]); simplify_eq; congruence.
        -- split.
           ++ intros [= ->]. repeat split; try done.
              exists e. split; [done|]. right. by exists c.
           ++ intros (_ & _ & e' & ? & [[? _]|(c' & ? & ? & ?)]); simplify_eq; congruence.
    + assert ((∀ msg, y ≠ TankError msg) →
        (Raise y : result unit) = Raise x ↔
        false = false ∧ ProjectOpened.project_metadata s p ≠ ∅
        ∧ ∃ e0, Some e = Some e0
            ∧ ((ProjectOpened.context_from_entity tk (ProjectOpened.etype e0)
                  (ProjectOpened.eid e0) = Raise x ∧ ∀ msg, x ≠ TankError msg)
               ∨ ∃ c, ProjectOpened.context_from_entity tk (ProjectOpened.etype e0)
                        (ProjectOpened.eid e0) = Return c
                      ∧ c ≠ ProjectOpened.context s
                      ∧ ProjectOpened.change_context_outcome tk c = Raise x))
        as Hother.
      { intros Hy. split.
        - intros [= ->]. repeat split; try done.
          exists e. split; [done|]. by left.
        - intros (_ & _ & e' & ? & [[? _]|(c' & ? & _)]); simplify_eq; congruence. }
      destruct y as [msg| | |]; cbn [fst]; try (by apply Hother).
      split; [done|].
      intros (_ & _ & e' & ? & [[? Hx]|(c' & ? & _)]); simplify_eq; [|congruence].
      destruct (Hx msg). congruence.
Qed.

(** ** [show_panel] *)


Section show_panel.
Import Panel.

(** A call of [show_panel] in closed form. *)
Lemma show_panel_unfold panel_id title bundle_name cls h :
  show_panel panel_id title bundle_name cls h =
  if major (app_version h) <? 4 then
    (Raise (AttributeError (refusal_message (app_version h))), h)
  else
    match found_main_window h panel_id with
    | None =>
        (Raise (Exception "Unable to get the 'MainWindow' widget!"),
         Host (app_version h) (widgets h) (palettes h) (calls h ++ [AllWidgets])
           (log h ++ [Log DEBUG "Showing pane %s - %s from %s"
                        [panel_id; title; bundle_name]]))
    | Some main_window =>
        let w := returned h panel_id in
        (Return w,
         Host (app_version h)
           (widgets_after h panel_id cls main_window)
           (alter (λ p, Palette (shortName p) (body p) true) panel_id
              (alter (λ p, Palette title (body p) (inFront p)) panel_id
                 (<[panel_id := Palette EmptyString w false]>
                    match palettes h !! panel_id with
                    | Some _ => delete panel_id (palettes h)
                    | None => palettes h
                    end)))
           (calls_after h panel_id title main_window)
           (log_after h panel_id title bundle_name))
    end.
Proof.
  unfold show_panel, widgets_after, calls_after, log_after, candidates, returned,
    found_main_window, found_widget, allWidgets, construct, setParent, palettes_find,
    palettes_remove, palettes_create, setShortName, showInFront, debug,
    record_call, set_widgets, set_palettes.
  run_monad. cbn [app_version widgets palettes calls log].
  destruct (major (app_version h) <? 4); [reflexivity|].
  fold (widget_id panel_id).
  destruct (scan (widget_id panel_id) (widgets h) (None, None)) as [[mw|] [w|]];
    cbn [fst snd default app_version widgets palettes calls log];
    try reflexivity;
    destruct (palettes h !! panel_id) as [pal|];
    rewrite ?bool_decide_eq_true_2 by eauto;
    rewrite ?bool_decide_eq_false_2 by (by intros [??]);
    cbn [app_version widgets palettes calls log];
    rewrite <- ?app_assoc; reflexivity.
Qed.

(** *** The scan *)


(** The panel widget found is the last widget carrying the name, if
    there is one. *)
Lemma scan_snd id l acc :
  (scan id l acc).2 =
  match last_named id l with Some x => Some (wid x) | None => acc.2 end.
Proof.
  unfold last_named. revert acc.
  induction l as [|x l IH]; intros acc; cbn [scan]; [done|].
  destruct (String.eqb (objectName x) id) eqn:Hname.
  - apply String.eqb_eq in Hname.
    rewrite filter_cons_True, last_cons, IH by done.
    by destruct (last _).
  - apply String.eqb_neq in Hname. rewrite filter_cons_False by done.
    destruct (String.eqb _ MARI_MAIN_WINDOW_WIDGET_NAME); by rewrite IH.
Qed.

Lemma last_named_elem id l x :
  last_named id l = Some x → x ∈ l ∧ objectName x = id.
Proof.
  unfold last_named. intros [? ?]%last_Some_elem_of%list_elem_of_filter. done.
Qed.



Lemma reparent_contents w o x : contents (reparent w o x) = contents x.
Proof. unfold reparent. by destruct (decide _). Qed.

Lemma reparent_parent w o x : wid x = w → parent (reparent w o x) = o.
Proof. intros. unfold reparent. by rewrite decide_True. Qed.



(** *** A call that returns *)

Lemma show_panel_return_inv panel_id title bundle_name cls h w :
  (show_panel panel_id title bundle_name cls h).1 = Return w →
  w = returned h panel_id
  ∧ ∃ main_window,
      found_main_window h panel_id = Some main_window
      ∧ (show_panel panel_id title bundle_name cls h).2
        = Host (app_version h)
            (widgets_after h panel_id cls main_window)
            (alter (λ p, Palette (shortName p) (body p) true) panel_id
               (alter (λ p, Palette title (body p) (inFront p)) panel_id
                  (<[panel_id := Palette EmptyString w false]>
                     match palettes h !! panel_id with
                     | Some _ => delete panel_id (palettes h)
                     | None => palettes h
                     end)))
            (calls_after h panel_id title main_window)
            (log_after h panel_id title bundle_name).
Proof.
  rewrite show_panel_unfold. destruct (_ <? 4); [done|].
  destruct (found_main_window h panel_id) as [mw|]; [|done].
  cbn. intros [= <-]. split; [done|]. by exists mw.
Qed.



(** A widget with the identity returned goes through the call with its
    name and contents, and ends up owned by the new palette. *)
Lemma widgets_after_keeps h panel_id cls mw x :
  x ∈ candidates h panel_id cls →
  wid x = returned h panel_id →
  Widget (wid x) (objectName x) (PaletteParent panel_id) (contents x)
  ∈ widgets_after h panel_id cls mw.
Proof.
  intros Hx Hw. unfold widgets_after.
  set (w := returned h panel_id) in *.
  apply list_elem_of_fmap. exists (reparent w (WidgetParent mw) x). split.
  { unfold reparent. rewrite (decide_True _ _ Hw). cbn.
    by rewrite (decide_True _ _ Hw). }
  assert (reparent w (WidgetParent mw) x
          ∈ reparent w (WidgetParent mw) <$> candidates h panel_id cls) as Hin.
  { apply list_elem_of_fmap. by exists x. }
  destruct (palettes h !! panel_id); [|done].
  apply list_elem_of_filter. split; [|done].
  by rewrite reparent_parent.
Qed.



End show_panel.

(** C7: on a host whose major version is below 4, [show_panel] raises the
    AttributeError refusal and leaves the host exactly as it was: no call
    reaches the host (no widget scan, no construction, no reparenting, no
    palette), and nothing is logged. *)
Theorem show_panel_refused (panel_id title bundle_name : string)
    (cls : Panel.widget_class) (h : Panel.host) :
  major (Panel.app_version h) < 4 →
  Panel.show_panel panel_id title bundle_name cls h
  = (Raise (AttributeError (Panel.refusal_message (Panel.app_version h))), h).
Proof.
  intros Hold. rewrite show_panel_unfold.
  by rewrite (proj2 (Z.ltb_lt _ _) Hold).
Qed.



(** ** Start-up command dispatch *)

Section startup.
Import Startup.

(** *** The first loop: grouping the commands by app instance *)

Lemma file_command_lookup2 acc item a n :
  lookup2 (file_command acc item) a n =
  if decide (app item.2 = Some a ∧ item.1 = n) then Some (callback item.2)
  else lookup2 acc a n.
Proof.
  unfold file_command, lookup2. destruct (app item.2) as [i|] eqn:Happ.
  - destruct (decide (i = a)) as [->|Hne].
    + rewrite lookup_insert_eq. cbn.
      destruct (decide (item.1 = n)) as [->|Hn].
      * rewrite lookup_insert_eq, decide_True; done.
      * rewrite lookup_insert_ne, decide_False by tauto.
        by destruct (acc !! a).
    + rewrite lookup_insert_ne, decide_False by (try intros [[=] _]; done). done.
  - by rewrite decide_False by (by intros [? _]).
Qed.

Lemma foldl_file_command_lookup2 (l : list (string * command)) acc a n :
  NoDup l.*1 →
  lookup2 (foldl file_command acc l) a n =
  match (list_to_map l : gmap string command) !! n with
  | Some c => if decide (app c = Some a) then Some (callback c) else lookup2 acc a n
  | None => lookup2 acc a n
  end.
Proof.
  revert acc. induction l as [|[k c] l IH]; intros acc Hnodup; cbn; [done|].
  apply NoDup_cons in Hnodup as [Hk Hnodup].
  rewrite IH, file_command_lookup2 by done. cbn.
  destruct (decide (k = n)) as [->|Hne].
  - rewrite lookup_insert_eq, (not_elem_of_list_to_map_1 _ _ Hk).
    destruct (decide (app c = Some a)).
    + by rewrite decide_True.
    + by rewrite decide_False by tauto.
  - rewrite lookup_insert_ne by done.
    rewrite (decide_False (P := _ ∧ k = n)) by tauto. done.
Qed.

(** Every dictionary of the grouping holds at least one command. *)
Lemma foldl_file_command_nonempty (l : list (string * command)) acc :
  (∀ a d, acc !! a = Some d → d ≠ ∅) →
  ∀ a d, foldl file_command acc l !! a = Some d → d ≠ ∅.
Proof.
  revert acc. induction l as [|item l IH]; intros acc Hacc; cbn; [done|].
  apply IH. intros a d. unfold file_command.
  destruct (app item.2) as [i|]; [|apply Hacc].
  destruct (decide (i = a)) as [->|Hne].
  - rewrite lookup_insert_eq. intros [= <-]. apply insert_non_empty.
  - rewrite lookup_insert_ne by done. apply Hacc.
Qed.

(** The grouping holds, for each app instance, exactly the commands it
    registered, and nothing for an instance that registered none. *)
Lemma app_instance_commands_lookup commands a :
  app_instance_commands commands !! a =
  if decide (registered commands a = ∅) then None
  else Some (registered commands a).
Proof.
  assert (∀ n, lookup2 (app_instance_commands commands) a n
               = registered commands a !! n) as Hlk.
  { intros n. unfold app_instance_commands, iteritems.
    rewrite foldl_file_command_lookup2 by apply NoDup_fst_map_to_list.
    rewrite list_to_map_to_list. unfold registered. rewrite lookup_omap.
    destruct (commands !! n) as [c|]; cbn; [|done].
    destruct (decide _); done. }
  assert (∀ d, app_instance_commands commands !! a = Some d → d ≠ ∅) as Hne.
  { apply foldl_file_command_nonempty. intros ? ?. by rewrite lookup_empty. }
  unfold lookup2 in Hlk.
  destruct (app_instance_commands commands !! a) as [d|] eqn:Hd; cbn in Hlk.
  - assert (d = registered commands a) as <- by (by apply map_eq).
    rewrite decide_False; [done|]. by apply Hne.
  - rewrite decide_True; [done|]. apply map_eq. intros n.
    by rewrite <- Hlk, lookup_empty.
Qed.

(** *** The second loop: resolving the entries of the setting *)

Lemma expand_all engine_name a (items : list (string * nat)) acc e :
  for_fold items
    (λ commands_to_run item,
       emit (running engine_name a item.1) ;;' ret (commands_to_run ++ [item.2]))
    acc e
  = (Return (acc ++ items.*2),
     Engine (log e ++ ((λ item, running engine_name a item.1) <$> items)) (invoked e)).
Proof.
  revert acc e. induction items as [|item items IH]; intros acc e; cbn.
  - unfold ret. rewrite !app_nil_r. by destruct e.
  - unfold bind at 1. unfold emit. run_monad. rewrite IH. cbn.
    by rewrite <- !app_assoc.
Qed.

Lemma startup_entry_unfold engine_name G acc s e :
  startup_entry engine_name G acc s e
  = (Return (acc ++ entry_commands G s),
     Engine (log e ++ entry_log engine_name G s) (invoked e)).
Proof.
  unfold startup_entry, entry_commands, entry_log.
  destruct (G !! app_instance s) as [d|].
  - destruct (String.eqb (name s) EmptyString); [apply expand_all|].
    destruct (d !! name s); unfold emit; run_monad; by rewrite ?app_nil_r.
  - unfold emit. run_monad. by rewrite app_nil_r.
Qed.

Lemma resolve_entries engine_name G (settings : list app_setting) acc e :
  for_fold settings (startup_entry engine_name G) acc e
  = (Return (acc ++ concat (entry_commands G <$> settings)),
     Engine (log e ++ concat (entry_log engine_name G <$> settings)) (invoked e)).
Proof.
  revert acc e. induction settings as [|s settings IH]; intros acc e; cbn.
  - unfold ret. rewrite !app_nil_r. by destruct e.
  - unfold bind. rewrite startup_entry_unfold, IH. cbn.
    by rewrite <- !app_assoc.
Qed.

Lemma commands_to_run_unfold engine_name commands settings e :
  commands_to_run engine_name commands settings e
  = (Return (concat (entry_commands (app_instance_commands commands) <$> settings)),
     Engine (log e ++ concat (entry_log engine_name (app_instance_commands commands)
                                <$> settings))
       (invoked e)).
Proof. unfold commands_to_run. by rewrite resolve_entries. Qed.

(** *** The third loop: invoking the commands *)

Lemma invoke_all behaviour (to_run : list nat) e :
  (∀ c, c ∈ to_run → behaviour c = Return tt) →
  for_each to_run (invoke behaviour) e
  = (Return tt, Engine (log e) (invoked e ++ to_run)).
Proof.
  revert e. induction to_run as [|c to_run IH]; intros e Hok; cbn.
  - unfold ret. rewrite app_nil_r. by destruct e.
  - unfold bind, invoke at 1. rewrite (Hok c) by left.
    rewrite IH by (intros; apply Hok; by right). cbn.
    by rewrite <- app_assoc.
Qed.

(** An exception of a command stops the loop: what has been invoked is a
    prefix of the list, up to the command that raised. *)
Lemma invoke_prefix behaviour (to_run : list nat) e :
  ∃ k, invoked (for_each to_run (invoke behaviour) e).2 = invoked e ++ take k to_run.
Proof.
  revert e. induction to_run as [|c to_run IH]; intros e; cbn.
  - exists 0%nat. by rewrite app_nil_r.
  - unfold bind, invoke at 1. destruct (behaviour c) as [[]|x].
    + destruct (IH (Engine (log e) (invoked e ++ [c]))) as [k Hk].
      exists (S k). etrans; [exact Hk|]. cbn. by rewrite <- app_assoc.
    + exists 1%nat. cbn. by rewrite take_0.
Qed.

End startup.

(** C8: start-up command dispatch.  With run_at_startup = [(A, empty
    name); (B, doit)], A having registered the commands x and y and B the
    command doit, the commands to run are x and y in the order the
    dictionary enumerates them, followed by doit, and they are invoked in
    that order when none of them raises.  The entries of the setting are
    resolved one by one, each adding its own commands and log records,
    whatever the entries around it are: an entry for an app instance that
    registered no command, and an entry for a command its instance does not
    have, add nothing and log one record, whose level is WARNING; an entry
    with an empty name adds all the commands of its instance; an entry
    naming a registered command adds that command. *)
Theorem run_at_startup_dispatch (engine_name : string)
    (commands : gmap string Startup.command) (e : Startup.engine) :
  (∀ cx cy cd,
     Startup.registered commands "A" = {[ "x" := cx; "y" := cy ]} →
     Startup.registered commands "B" = {[ "doit" := cd ]} →
     let setting := [Startup.AppSetting "A" EmptyString; Startup.AppSetting "B" "doit"] in
     ∃ l, l ≡ₚ [cx; cy]
          ∧ (Startup.commands_to_run engine_name commands setting e).1
            = Return (l ++ [cd])
          ∧ ∀ behaviour,
              behaviour cx = Return tt → behaviour cy = Return tt →
              behaviour cd = Return tt →
              Startup._run_app_instance_commands engine_name commands setting
                behaviour e
              = (Return tt,
                 Startup.Engine
                   (Startup.log e
                    ++ ((λ item, Startup.running engine_name "A" item.1)
                          <$> Startup.iteritems ({[ "x" := cx; "y" := cy ]} : gmap string nat))
                    ++ [Startup.running engine_name "B" "doit"])
                   (Startup.invoked e ++ l ++ [cd])))
  ∧ (∀ before s after,
       ∃ l1 l2 l3 g1 g2 g3,
         Startup.commands_to_run engine_name commands before e
         = (Return l1, Startup.Engine (Startup.log e ++ g1) (Startup.invoked e))
         ∧ Startup.commands_to_run engine_name commands [s] e
           = (Return l2, Startup.Engine (Startup.log e ++ g2) (Startup.invoked e))
         ∧ Startup.commands_to_run engine_name commands after e
           = (Return l3, Startup.Engine (Startup.log e ++ g3) (Startup.invoked e))
         ∧ Startup.commands_to_run engine_name commands (before ++ [s] ++ after) e
           = (Return (l1 ++ l2 ++ l3),
              Startup.Engine (Startup.log e ++ g1 ++ g2 ++ g3) (Startup.invoked e)))
  ∧ (∀ s,
       Startup.registered commands (Startup.app_instance s) = ∅ →
       Startup.commands_to_run engine_name commands [s] e
       = (Return [],
          Startup.Engine (Startup.log e ++ [Startup.not_installed engine_name s])
            (Startup.invoked e))
       ∧ lvl (Startup.not_installed engine_name s) = WARNING)
  ∧ (∀ s,
       Startup.name s ≠ EmptyString →
       Startup.registered commands (Startup.app_instance s) ≠ ∅ →
       Startup.registered commands (Startup.app_instance s) !! Startup.name s = None →
       Startup.commands_to_run engine_name commands [s] e
       = (Return [],
          Startup.Engine
            (Startup.log e
             ++ [Startup.unknown_command engine_name s
                   (Startup.registered commands (Startup.app_instance s))])
            (Startup.invoked e))
       ∧ lvl (Startup.unknown_command engine_name s
                (Startup.registered commands (Startup.app_instance s))) = WARNING)
  ∧ (∀ s,
       Startup.name s = EmptyString →
       Startup.registered commands (Startup.app_instance s) ≠ ∅ →
       ∃ l, (Startup.commands_to_run engine_name commands [s] e).1 = Return l
            ∧ l ≡ₚ (map_to_list (Startup.registered commands (Startup.app_instance s))).*2
            ∧ ∀ c, c ∈ l ↔
                   ∃ n, Startup.registered commands (Startup.app_instance s) !! n = Some c)
  ∧ (∀ s command_function,
       Startup.name s ≠ EmptyString →
       Startup.registered commands (Startup.app_instance s) !! Startup.name s
       = Some command_function →
       (Startup.commands_to_run engine_name commands [s] e).1
       = Return [command_function]).
Proof.
  assert (∀ s, Startup.registered commands (Startup.app_instance s) ≠ ∅ →
            Startup.app_instance_commands commands !! Startup.app_instance s
            = Some (Startup.registered commands (Startup.app_instance s))) as Hknown.
  { intros s Hne. rewrite app_instance_commands_lookup. by rewrite decide_False. }
  assert (∀ s, Startup.name s ≠ EmptyString →
            String.eqb (Startup.name s) EmptyString = false) as Hnamed.
  { intros s. by rewrite String.eqb_neq. }
  split; [|split; [|split; [|split; [|split]]]].
  - intros cx cy cd HA HB setting.
    assert (Startup.app_instance_commands commands !! "A"
            = Some ({[ "x" := cx; "y" := cy ]} : gmap string nat)) as HGA.
    { rewrite app_instance_commands_lookup, HA. rewrite decide_False; [done|].
      apply insert_non_empty. }
    assert (Startup.app_instance_commands commands !! "B"
            = Some ({[ "doit" := cd ]} : gmap string nat)) as HGB.
    { rewrite app_instance_commands_lookup, HB. rewrite decide_False; [done|].
      apply insert_non_empty. }
    exists (Startup.iteritems ({[ "x" := cx; "y" := cy ]} : gmap string nat)).*2.
    assert (Startup.commands_to_run engine_name commands setting e
            = (Return ((Startup.iteritems ({[ "x" := cx; "y" := cy ]} : gmap string nat)).*2
                       ++ [cd]),
               Startup.Engine
                 (Startup.log e
                  ++ ((λ item, Startup.running engine_name "A" item.1)
                        <$> Startup.iteritems ({[ "x" := cx; "y" := cy ]} : gmap string nat))
                  ++ [Startup.running engine_name "B" "doit"])
                 (Startup.invoked e))) as Hrun.
    { rewrite commands_to_run_unfold. subst setting. cbn [fmap list_fmap concat].
      unfold Startup.entry_commands, Startup.entry_log.
      cbn [Startup.app_instance Startup.name]. rewrite HGA, HGB.
      cbn [String.eqb Ascii.eqb]. rewrite lookup_singleton_eq.
      by rewrite !app_nil_r. }
    assert ((Startup.iteritems ({[ "x" := cx; "y" := cy ]} : gmap string nat)).*2
            ≡ₚ [cx; cy]) as Hperm.
    { unfold Startup.iteritems.
      rewrite map_to_list_insert by done. rewrite map_to_list_singleton.
      reflexivity. }
    split; [done|]. split; [by rewrite Hrun|].
    intros behaviour Hx Hy Hd. unfold Startup._run_app_instance_commands, bind.
    rewrite Hrun. cbn beta iota. rewrite invoke_all; [reflexivity|].
    intros c [Hc|Hc%list_elem_of_singleton]%elem_of_app; [|by subst].
    rewrite Hperm in Hc.
    apply elem_of_cons in Hc as [->|Hc%list_elem_of_singleton]; [done|by subst].
  - intros before s after.
    set (G := Startup.app_instance_commands commands).
    exists (concat (Startup.entry_commands G <$> before)),
      (Startup.entry_commands G s),
      (concat (Startup.entry_commands G <$> after)),
      (concat (Startup.entry_log engine_name G <$> before)),
      (Startup.entry_log engine_name G s),
      (concat (Startup.entry_log engine_name G <$> after)).
    rewrite !commands_to_run_unfold, !fmap_app, !concat_app. fold G.
    cbn [fmap list_fmap concat]. rewrite !app_nil_r. done.
  - intros s Hnone. split; [|reflexivity].
    rewrite commands_to_run_unfold. cbn [fmap list_fmap concat].
    unfold Startup.entry_commands, Startup.entry_log.
    rewrite app_instance_commands_lookup, decide_True by done.
    by rewrite !app_nil_r.
  - intros s Hname Hsome Hmiss. split; [|reflexivity].
    rewrite commands_to_run_unfold. cbn [fmap list_fmap concat].
    unfold Startup.entry_commands, Startup.entry_log.
    rewrite (Hknown s Hsome), (Hnamed s Hname), Hmiss.
    by rewrite !app_nil_r.
  - intros s Hname Hsome. eexists. rewrite commands_to_run_unfold.
    cbn [fmap list_fmap concat fst].
    unfold Startup.entry_commands.
    rewrite (Hknown s Hsome), Hname. cbn [String.eqb]. rewrite app_nil_r.
    split; [done|]. split; [done|].
    intros c. unfold Startup.iteritems. rewrite list_elem_of_fmap. split.
    + intros ([n c'] & -> & Hin). exists n. by apply elem_of_map_to_list.
    + intros [n Hn]. exists (n, c). split; [done|]. by apply elem_of_map_to_list.
  - intros s f Hname Hf. rewrite commands_to_run_unfold.
    cbn [fmap list_fmap concat fst].
    unfold Startup.entry_commands.
    assert (Startup.registered commands (Startup.app_instance s) ≠ ∅) as Hsome.
    { intros Hempty. by rewrite Hempty, lookup_empty in Hf. }
    by rewrite (Hknown s Hsome), (Hnamed s Hname), Hf, app_nil_r.
Qed.

(** * Further properties *)

(** ** [pre_app_init] *)

(** X1: an engine start that raises has changed nothing but the log: no
    dialog was opened, the environment is as it was and the manager
    handles are not cached; a start that returns has cached them. *)
Theorem pre_app_init_failure_atomic (h : PreAppInit.host) (s : PreAppInit.state) :
  let r := PreAppInit.pre_app_init h s in
  (∀ e, r.1 = Raise e →
     PreAppInit.messages r.2 = PreAppInit.messages s
     ∧ PreAppInit.environ r.2 = PreAppInit.environ s
     ∧ PreAppInit.managers_cached r.2 = PreAppInit.managers_cached s
     ∧ (PreAppInit.app_version h = Raise e
        ∨ ∃ v, PreAppInit.app_version h = Return v
               ∧ PreAppInit.below_2_6 v
               ∧ e = TankError (PreAppInit.unsupported_message v)))
  ∧ (r.1 = Return tt → PreAppInit.managers_cached r.2 = true).
Proof.
  cbn zeta. rewrite pre_app_init_unfold. cbn zeta.
  destruct (PreAppInit.app_version h) as [v|x] eqn:Hv.
  - destruct (PreAppInit.below_minimum v) eqn:Hlow.
    + split; [|done]. intros e [= <-]. repeat split; try done.
      right. exists v. by rewrite <- below_minimum_spec.
    + destruct (PreAppInit.above_maximum v); [case_bool_decide|]; by split.
  - split; [|done]. intros e [= <-]. repeat split; try done. by left.
Qed.

(** X2: in terminal mode no series of engine starts opens a dialog or
    writes to the environment, whatever the versions and settings. *)
Theorem pre_app_init_terminal_mode (hs : list PreAppInit.host) (s : PreAppInit.state) :
  (∀ h, h ∈ hs → PreAppInit.inTerminalMode h = true) →
  PreAppInit.messages (PreAppInit.starts hs s) = PreAppInit.messages s
  ∧ PreAppInit.environ (PreAppInit.starts hs s) = PreAppInit.environ s.
Proof.
  revert s. induction hs as [|h hs IH]; intros s Hterm; [done|].
  cbn [PreAppInit.starts].
  assert (PreAppInit.messages (PreAppInit.pre_app_init h s).2 = PreAppInit.messages s
          ∧ PreAppInit.environ (PreAppInit.pre_app_init h s).2 = PreAppInit.environ s)
    as [Hm He].
  { rewrite pre_app_init_unfold. cbn zeta.
    destruct (PreAppInit.app_version h) as [v|x]; [|done].
    destruct (PreAppInit.below_minimum v); [done|].
    destruct (PreAppInit.above_maximum v); [|done].
    rewrite bool_decide_eq_false_2; [done|].
    intros (Hui & _). rewrite (Hterm h) in Hui by left. done. }
  destruct (IH (PreAppInit.pre_app_init h s).2) as [IHm IHe].
  { intros h' Hh'. apply Hterm. by right. }
  by rewrite IHm, IHe.
Qed.

(** X3: the revision of the host version plays no part in the gate: two
    hosts that agree on everything but the revision fail or pass together,
    and leave the same environment, dialogs count and manager cache.  In
    particular 2.6.0 passes although the minimum is announced as 2.6v1. *)
Theorem pre_app_init_ignores_revision (h h' : PreAppInit.host) (s : PreAppInit.state)
    (v v' : version) :
  PreAppInit.app_version h = Return v →
  PreAppInit.app_version h' = Return v' →
  major v = major v' → minor v = minor v' →
  PreAppInit.inTerminalMode h = PreAppInit.inTerminalMode h' →
  PreAppInit.compatibility_dialog_min_version h
  = PreAppInit.compatibility_dialog_min_version h' →
  let r := PreAppInit.pre_app_init h s in
  let r' := PreAppInit.pre_app_init h' s in
  (raises r.1 ↔ raises r'.1)
  ∧ PreAppInit.environ r.2 = PreAppInit.environ r'.2
  ∧ length (PreAppInit.messages r.2) = length (PreAppInit.messages r'.2)
  ∧ PreAppInit.managers_cached r.2 = PreAppInit.managers_cached r'.2.
Proof.
  intros Hv Hv' Hmajor Hminor Hterm Hset. cbn zeta.
  rewrite !pre_app_init_unfold, Hv, Hv'. cbn zeta.
  assert (PreAppInit.below_minimum v = PreAppInit.below_minimum v') as ->.
  { unfold PreAppInit.below_minimum. by rewrite Hmajor, Hminor. }
  assert (PreAppInit.above_maximum v = PreAppInit.above_maximum v') as ->.
  { unfold PreAppInit.above_maximum. by rewrite Hmajor, Hminor. }
  assert (bool_decide (PreAppInit.dialog_due h s v)
          = bool_decide (PreAppInit.dialog_due h' s v')) as ->.
  { apply bool_decide_ext. unfold PreAppInit.dialog_due.
    by rewrite Hterm, Hset, Hmajor. }
  destruct (PreAppInit.below_minimum v'); [done|].
  destruct (PreAppInit.above_maximum v'); [|done].
  destruct (bool_decide _); cbn; by rewrite ?length_app.
Qed.

(** X4: when the flag SGTK_MARI_VERSION_WARNING_SHOWN is already in the
    environment, as in a process that inherited it, no series of engine
    starts opens the warning dialog, and the flag stays. *)
Theorem inherited_flag_silences_dialog (hs : list PreAppInit.host)
    (s : PreAppInit.state) :
  PreAppInit.SGTK_MARI_VERSION_WARNING_SHOWN ∈ dom (PreAppInit.environ s) →
  PreAppInit.messages (PreAppInit.starts hs s) = PreAppInit.messages s
  ∧ PreAppInit.SGTK_MARI_VERSION_WARNING_SHOWN
    ∈ dom (PreAppInit.environ (PreAppInit.starts hs s)).
Proof.
  revert s. induction hs as [|h hs IH]; intros s Hflag; [done|].
  cbn [PreAppInit.starts]. destruct (flag_set_quiet h s Hflag) as [Hflag' Hsame].
  destruct (IH _ Hflag') as [IHm IHf]. by rewrite IHm.
Qed.

(** ** [show_panel] *)

Section show_panel_further.
Import Panel.

Lemma widget_id_not_main_window panel_id :
  widget_id panel_id ≠ MARI_MAIN_WINDOW_WIDGET_NAME.
Proof. unfold widget_id, SHOTGUN_APP_PALETTE_PREFIX. cbn. discriminate. Qed.

(** The main window found is the last widget named MainWindow, if any. *)
Lemma scan_fst panel_id l acc :
  (scan (widget_id panel_id) l acc).1 =
  match last_named MARI_MAIN_WINDOW_WIDGET_NAME l with
  | Some x => Some (wid x)
  | None => acc.1
  end.
Proof.
  unfold last_named. revert acc.
  induction l as [|x l IH]; intros acc; cbn [scan]; [done|].
  destruct (String.eqb (objectName x) (widget_id panel_id)) eqn:Hid.
  - apply String.eqb_eq in Hid.
    rewrite filter_cons_False, IH; [done|].
    rewrite Hid. apply widget_id_not_main_window.
  - destruct (String.eqb (objectName x) MARI_MAIN_WINDOW_WIDGET_NAME) eqn:Hmw.
    + apply String.eqb_eq in Hmw.
      rewrite filter_cons_True, last_cons, IH by done. by destruct (last _).
    + apply String.eqb_neq in Hmw. by rewrite filter_cons_False, IH.
Qed.

Lemma found_main_window_None h panel_id :
  found_main_window h panel_id = None ↔
  ∀ x, x ∈ widgets h → objectName x ≠ MARI_MAIN_WINDOW_WIDGET_NAME.
Proof.
  unfold found_main_window. rewrite scan_fst. unfold last_named.
  destruct (last _) as [x|] eqn:Hlast; cbn.
  - split; [done|]. intros Hno.
    apply last_Some_elem_of, list_elem_of_filter in Hlast as [Hname Hx].
    by destruct (Hno x Hx).
  - split; [|done]. intros _ x Hx Hname.
    apply last_None in Hlast.
    assert (x ∈ filter (λ y, objectName y = MARI_MAIN_WINDOW_WIDGET_NAME) (widgets h))
      as Hin by (by apply list_elem_of_filter).
    rewrite Hlast in Hin. by apply elem_of_nil in Hin.
Qed.

Lemma fresh_wid_above (ws : list widget) x : x ∈ ws → (wid x < fresh_wid ws)%nat.
Proof.
  unfold fresh_wid. induction 1 as [x ws|x y ws _ IH]; cbn in *; lia.
Qed.


Lemma filter_none {A} (P : A → Prop) `{!∀ x, Decision (P x)} (l : list A) :
  (∀ x, x ∈ l → ¬ P x) → filter P l = [].
Proof.
  induction l as [|x l IH]; intros Hno; [done|].
  rewrite filter_cons_False by (apply Hno; left).
  apply IH. intros y Hy. apply Hno. by right.
Qed.

End show_panel_further.

(** X5: on a host of major version 4 or later, [show_panel] raises the
    Exception about the main window exactly when no widget is named
    MainWindow, and then it has only scanned the widgets: none was built or
    reparented and the palettes are as they were; with a widget named
    MainWindow the call returns a widget. *)
Theorem show_panel_outcomes (panel_id title bundle_name : string)
    (cls : Panel.widget_class) (h : Panel.host) :
  4 ≤ major (Panel.app_version h) →
  let r := Panel.show_panel panel_id title bundle_name cls h in
  ((∀ x, x ∈ Panel.widgets h → Panel.objectName x ≠ "MainWindow") →
     r.1 = Raise (Exception "Unable to get the 'MainWindow' widget!")
     ∧ Panel.widgets r.2 = Panel.widgets h
     ∧ Panel.palettes r.2 = Panel.palettes h
     ∧ Panel.calls r.2 = Panel.calls h ++ [Panel.AllWidgets])
  ∧ ((∃ x, x ∈ Panel.widgets h ∧ Panel.objectName x = "MainWindow") →
     ∃ w, r.1 = Return w).
Proof.
  intros Hnew. cbn zeta. rewrite show_panel_unfold.
  rewrite (proj2 (Z.ltb_ge _ _) Hnew).
  destruct (Panel.found_main_window h panel_id) as [mw|] eqn:Hmw.
  - split; [|by eexists]. intros Hno.
    apply (proj2 (found_main_window_None h panel_id)) in Hno. congruence.
  - split; [done|]. intros (x & Hx & Hname).
    destruct (proj1 (found_main_window_None h panel_id) Hmw x Hx Hname).
Qed.

(** X6: when several widgets carry the name of the panel, the call works on
    the last one the scan meets. *)
Theorem show_panel_last_named_wins (panel_id title bundle_name : string)
    (cls : Panel.widget_class) (h : Panel.host) (l1 l2 : list Panel.widget)
    (x : Panel.widget) (w : nat) :
  Panel.widgets h = l1 ++ x :: l2 →
  Panel.objectName x = Panel.widget_id panel_id →
  (∀ y, y ∈ l2 → Panel.objectName y ≠ Panel.widget_id panel_id) →
  (Panel.show_panel panel_id title bundle_name cls h).1 = Return w →
  w = Panel.wid x.
Proof.
  intros Hws Hname Hlast Hr.
  destruct (show_panel_return_inv _ _ _ _ _ _ Hr) as (-> & _).
  unfold Panel.returned, Panel.found_widget. rewrite scan_snd.
  unfold Panel.last_named. rewrite Hws, filter_app, filter_cons_True by done.
  assert (filter (λ y, Panel.objectName y = Panel.widget_id panel_id) l2 = []) as ->.
  { apply filter_none. intros y Hy. by apply Hlast. }
  by rewrite last_snoc.
Qed.


(** X8: when no widget carries the name of the panel, the widget class is
    instantiated exactly once: the widget returned has an identity no
    widget had before, holds the name and contents its class gave it, and
    is the only widget added. *)
Theorem show_panel_constructs_once (panel_id title bundle_name : string)
    (cls : Panel.widget_class) (h : Panel.host) (w : nat) :
  let r := Panel.show_panel panel_id title bundle_name cls h in
  (∀ x, x ∈ Panel.widgets h → Panel.objectName x ≠ Panel.widget_id panel_id) →
  r.1 = Return w →
  (∀ x, x ∈ Panel.widgets h → Panel.wid x ≠ w)
  ∧ Panel.live r.2 w (Panel.new_objectName cls) (Panel.new_contents cls)
  ∧ (∀ k, Panel.Construct k ∈ drop (length (Panel.calls h)) (Panel.calls r.2) ↔ k = w)
  ∧ (length (Panel.widgets r.2) ≤ S (length (Panel.widgets h)))%nat.
Proof.
  intros r Hnone Hr.
  destruct (show_panel_return_inv _ _ _ _ _ _ Hr) as (Hw & mw & _ & Hafter).
  fold r in Hafter.
  assert (Panel.found_widget h panel_id = None) as Hfound.
  { unfold Panel.found_widget. rewrite scan_snd.
    destruct (Panel.last_named _ _) as [x|] eqn:Hlast; [|done].
    destruct (last_named_elem _ _ _ Hlast) as [Hx Hname]. by destruct (Hnone x Hx). }
  assert (w = Panel.fresh_wid (Panel.widgets h)) as Hfresh.
  { rewrite Hw. unfold Panel.returned. by rewrite Hfound. }
  split; [|split; [|split]].
  - intros x Hx Heq. apply fresh_wid_above in Hx. lia.
  - rewrite Hafter.
    exists (Panel.Widget w (Panel.new_objectName cls) (Panel.PaletteParent panel_id)
              (Panel.new_contents cls)).
    split; [|done]. cbn [Panel.widgets].
    pose proof (widgets_after_keeps h panel_id cls mw
                  (Panel.Widget w (Panel.new_objectName cls) Panel.NoParent
                     (Panel.new_contents cls))) as Hkeep.
    cbn in Hkeep. apply Hkeep; [|done].
    unfold Panel.candidates. rewrite Hfound, <- Hw.
    apply elem_of_app. right. by apply list_elem_of_singleton.
  - intros k. rewrite Hafter. cbn [Panel.calls]. unfold Panel.calls_after.
    rewrite drop_app_length, Hfound, <- Hw.
    destruct (Panel.palettes h !! panel_id); cbn;
      rewrite ?elem_of_cons, ?elem_of_nil; split;
      intros; repeat match goal with
                     | H : _ ∨ _ |- _ => destruct H
                     end; try discriminate; try done; simplify_eq; auto.
  - rewrite Hafter. cbn [Panel.widgets]. unfold Panel.widgets_after, Panel.candidates.
    rewrite Hfound, length_fmap.
    destruct (Panel.palettes h !! panel_id).
    + etrans; [apply length_filter|]. rewrite length_fmap, length_app. cbn. lia.
    + rewrite length_fmap, length_app. cbn. lia.
Qed.

(** ** The project-opened handler *)

(** X9: when the metadata of an opened project yields an entity, the
    resolver returns a context other than the current one and the switch
    goes through, the handler returns with that context as the current one
    and has asked for exactly that one switch. *)
Theorem on_project_opened_switches (tk : ProjectOpened.sgtk)
    (p : ProjectOpened.project) (s : ProjectOpened.engine)
    (e : ProjectOpened.entity) (c : ProjectOpened.ctx) :
  ProjectOpened.project_metadata s p ≠ ∅ →
  ProjectOpened.ctx_entity (ProjectOpened.project_metadata s p) = Some e →
  ProjectOpened.context_from_entity tk (ProjectOpened.etype e) (ProjectOpened.eid e)
  = Return c →
  c ≠ ProjectOpened.context s →
  ProjectOpened.change_context_outcome tk c = Return tt →
  let r := ProjectOpened.__on_project_opened tk p false s in
  r.1 = Return tt
  ∧ ProjectOpened.context r.2 = c
  ∧ ProjectOpened.switches r.2 = ProjectOpened.switches s ++ [c]
  ∧ last (ProjectOpened.log r.2)
    = Some (Log DEBUG "Changing the engine context to Work Area: %s" [pretty c]).
Proof.
  intros Hmd He Hres Hne Hsw. cbn zeta. rewrite on_project_opened_unfold. cbn zeta.
  rewrite bool_decide_eq_false_2, He, Hres, decide_False by done.
  unfold ProjectOpened.change_context. rewrite Hsw. cbn.
  unfold ProjectOpened.after_stamp.
  destruct (truthy _); cbn; by rewrite last_snoc.
Qed.

(** X10: one run of the handler asks for at most one context switch, and
    only for a context the resolver returned and that differs from the
    current one; when the resolver returns the current context the handler
    returns without asking for a switch. *)
Theorem on_project_opened_at_most_one_switch (tk : ProjectOpened.sgtk)
    (p : ProjectOpened.project) (is_new : bool) (s : ProjectOpened.engine) :
  let md := ProjectOpened.project_metadata s p in
  let r := ProjectOpened.__on_project_opened tk p is_new s in
  (ProjectOpened.switches r.2 = ProjectOpened.switches s
   ∨ ∃ e c, is_new = false
            ∧ ProjectOpened.ctx_entity md = Some e
            ∧ ProjectOpened.context_from_entity tk (ProjectOpened.etype e)
                (ProjectOpened.eid e) = Return c
            ∧ c ≠ ProjectOpened.context s
            ∧ ProjectOpened.switches r.2 = ProjectOpened.switches s ++ [c])
  ∧ (∀ e, ProjectOpened.ctx_entity md = Some e →
          ProjectOpened.context_from_entity tk (ProjectOpened.etype e)
            (ProjectOpened.eid e) = Return (ProjectOpened.context s) →
          r.1 = Return tt
          ∧ ProjectOpened.context r.2 = ProjectOpened.context s
          ∧ ProjectOpened.switches r.2 = ProjectOpened.switches s).
Proof.
  cbn zeta. split.
  - rewrite on_project_opened_unfold. destruct is_new; [by left|]. cbn zeta.
    case_bool_decide; [by left|].
    assert (∀ r, ProjectOpened.switches (ProjectOpened.after_stamp p
                   (ProjectOpened.logged r s)) = ProjectOpened.switches s) as Hsw.
    { intros r. unfold ProjectOpened.after_stamp. by destruct (truthy _). }
    destruct (ProjectOpened.ctx_entity _) as [e|] eqn:He; [|left; apply Hsw].
    destruct (ProjectOpened.context_from_entity tk _ _) as [c|[]] eqn:Hres;
      try (left; apply Hsw).
    destruct (decide _) as [Heq|Hne]; [left; apply Hsw|].
    right. exists e, c. repeat split; try done.
    unfold ProjectOpened.change_context.
    destruct (ProjectOpened.change_context_outcome tk c); cbn; by rewrite Hsw.
  - intros e He Hres. split.
    + rewrite on_project_opened_unfold. destruct is_new; [done|]. cbn zeta.
      case_bool_decide; [done|]. by rewrite He, Hres, decide_True.
    + apply on_project_opened_frame. intros e' c He' Hres'. left. congruence.
Qed.

(** X11: whatever the outcome, the only metadata the handler may write is
    the version key of the opened project: every other key of that project
    and all metadata of the other projects read as before. *)
Theorem on_project_opened_writes_only_version (tk : ProjectOpened.sgtk)
    (p q : ProjectOpened.project) (is_new : bool) (s : ProjectOpened.engine)
    (key : string) :
  q ≠ p ∨ key ≠ "version" →
  ProjectOpened.project_metadata (ProjectOpened.__on_project_opened tk p is_new s).2 q
    !! key
  = ProjectOpened.project_metadata s q !! key.
Proof.
  intros Hother. unfold ProjectOpened.project_metadata at 1.
  rewrite on_project_opened_metadata.
  destruct (_ || _); [done|]. unfold ProjectOpened.after_stamp.
  destruct (truthy _); [done|]. unfold ProjectOpened.versioned.
  cbn [ProjectOpened.metadata].
  destruct (decide (q = p)) as [->|Hq].
  - rewrite lookup_insert_eq. cbn. destruct Hother as [?|Hkey]; [done|].
    by rewrite lookup_insert_ne.
  - by rewrite lookup_insert_ne.
Qed.

Lemma debug_only_log (l : list record) (P : Prop) :
  Forall (λ x, lvl x = DEBUG) l → ¬ P →
  (∀ x, x ∈ l → lvl x = DEBUG ∨ lvl x = ERROR)
  ∧ ((∃ x, x ∈ l ∧ lvl x = ERROR) ↔ P).
Proof.
  rewrite Forall_forall. intros Hall HP. split.
  - intros x Hx. left. by apply Hall.
  - split; [|done]. intros (x & Hx & Hlvl). rewrite (Hall x Hx) in Hlvl. done.
Qed.

(** X12: the handler only appends to the log, at the levels DEBUG and
    ERROR, and it logs at ERROR exactly when the resolver raised
    TankError for the entity derived from the metadata. *)
Theorem on_project_opened_error_log (tk : ProjectOpened.sgtk)
    (p : ProjectOpened.project) (is_new : bool) (s : ProjectOpened.engine) :
  let md := ProjectOpened.project_metadata s p in
  let r := ProjectOpened.__on_project_opened tk p is_new s in
  ∃ l, ProjectOpened.log r.2 = ProjectOpened.log s ++ l
       ∧ (∀ x, x ∈ l → lvl x = DEBUG ∨ lvl x = ERROR)
       ∧ ((∃ x, x ∈ l ∧ lvl x = ERROR) ↔
          is_new = false ∧ md ≠ ∅
          ∧ ∃ e msg, ProjectOpened.ctx_entity md = Some e
                     ∧ ProjectOpened.context_from_entity tk (ProjectOpened.etype e)
                         (ProjectOpened.eid e) = Raise (TankError msg)).
Proof.
  cbn zeta. rewrite on_project_opened_unfold.
  destruct is_new.
  { exists []. rewrite app_nil_r. split; [done|].
    apply debug_only_log; [constructor|by intros [? _]]. }
  cbn zeta. case_bool_decide as Hmd.
  { eexists. cbn. rewrite <- app_assoc. split; [done|].
    apply debug_only_log; [by repeat constructor|by intros (_ & ? & _)]. }
  assert (∀ s', ProjectOpened.log (ProjectOpened.after_stamp p s') = ProjectOpened.log s')
    as Hlog by apply log_after_stamp.
  destruct (ProjectOpened.ctx_entity _) as [e|] eqn:He.
  2:{ eexists. cbn. rewrite Hlog. cbn. rewrite <- app_assoc. split; [done|].
      apply debug_only_log; [by repeat constructor|].
      by intros (_ & _ & ? & ? & ? & _). }
  assert (∀ y : exn, (∀ msg, y ≠ TankError msg) →
            ProjectOpened.context_from_entity tk (ProjectOpened.etype e)
              (ProjectOpened.eid e) = Raise y →
            ¬ (false = false ∧ ProjectOpened.project_metadata s p ≠ ∅
               ∧ ∃ e0 msg, Some e = Some e0
                   ∧ ProjectOpened.context_from_entity tk (ProjectOpened.etype e0)
                       (ProjectOpened.eid e0) = Raise (TankError msg))) as Hother.
  { intros y Hy Hres (_ & _ & e' & msg & ? & Hres'). simplify_eq.
    rewrite Hres in Hres'. simplify_eq. by destruct (Hy msg). }
  destruct (ProjectOpened.context_from_entity tk _ _) as [c|[msg|y|y|y z]] eqn:Hres.
  - assert (¬ (false = false ∧ ProjectOpened.project_metadata s p ≠ ∅
               ∧ ∃ e0 msg, Some e = Some e0
                   ∧ ProjectOpened.context_from_entity tk (ProjectOpened.etype e0)
                       (ProjectOpened.eid e0) = Raise (TankError msg))) as Hno.
    { intros (_ & _ & e' & msg & ? & Hres'). simplify_eq. congruence. }
    destruct (decide _).
    + eexists. cbn. rewrite Hlog. cbn. split; [done|].
      apply debug_only_log; [by repeat constructor|done].
    + unfold ProjectOpened.change_context.
      destruct (ProjectOpened.change_context_outcome tk c); cbn; rewrite Hlog; cbn;
        rewrite <- app_assoc; eexists; (split; [done|]);
        (apply debug_only_log; [by repeat constructor|done]).
  - eexists. cbn. rewrite Hlog. cbn. rewrite <- app_assoc. split; [done|]. split.
    + intros x [->|[->|[]%elem_of_nil]%elem_of_cons]%elem_of_cons; [by left|by right].
    + split; [|intros _; eexists; split; [right; left|done]].
      intros _. repeat split; try done. by exists e, msg.
  - exists [ProjectOpened.opened_log]. cbn. rewrite Hlog. cbn. split; [done|].
    apply debug_only_log; [by repeat constructor|]. by apply (Hother (AttributeError y)).
  - exists [ProjectOpened.opened_log]. cbn. rewrite Hlog. cbn. split; [done|].
    apply debug_only_log; [by repeat constructor|]. by apply (Hother (Exception y)).
  - exists [ProjectOpened.opened_log]. cbn. rewrite Hlog. cbn. split; [done|].
    apply debug_only_log; [by repeat constructor|]. by apply (Hother (OtherError y z)).
Qed.

(** X13: the chain derives no entity exactly when none of its three cases
    applies, and an entity it derives always has an id and a type that test
    true, the type being Task, Project or the stored entity type: the
    resolver is never asked about an empty id or type. *)
Theorem ctx_entity_well_formed (md : gmap string value) :
  (ProjectOpened.ctx_entity md = None ↔
     ¬ ProjectOpened.present md "task_id"
     ∧ ¬ (ProjectOpened.present md "entity_id" ∧ ProjectOpened.present md "entity_type")
     ∧ ¬ ProjectOpened.present md "project_id")
  ∧ (∀ e, ProjectOpened.ctx_entity md = Some e →
       truthy (ProjectOpened.eid e) = true
       ∧ truthy (ProjectOpened.etype e) = true
       ∧ (ProjectOpened.etype e = VStr "Task"
          ∨ ProjectOpened.etype e = VStr "Project"
          ∨ ProjectOpened.etype e = get md "entity_type")).
Proof.
  unfold ProjectOpened.ctx_entity, ProjectOpened.present.
  destruct (truthy (get md "task_id")) eqn:Ht.
  { split; [split; [done|by intros [? _]]|]. intros e [= <-]. cbn. auto. }
  destruct (truthy (get md "entity_id")) eqn:Hi,
    (truthy (get md "entity_type")) eqn:Hy; cbn [andb].
  { split; [split; [done|intros (_ & Hno & _); by destruct Hno]|].
    intros e [= <-]. cbn. auto. }
  all: destruct (truthy (get md "project_id")) eqn:Hp.
  all: try (split; [split; [done|by intros (_ & _ & ?)]|]; intros e [= <-]; cbn; auto).
  all: split; [|done]; split; [|done]; intros _;
    repeat split; try done; by intros [? ?].
Qed.

(** ** Start-up command dispatch *)

Section startup_further.
Import Startup.

Lemma registered_lookup commands a n c :
  registered commands a !! n = Some c ↔
  ∃ cmd, commands !! n = Some cmd ∧ app cmd = Some a ∧ callback cmd = c.
Proof.
  unfold registered. rewrite lookup_omap.
  destruct (commands !! n) as [cmd|]; cbn.
  - destruct (decide (app cmd = Some a)) as [Ha|Ha].
    + split; [intros [= <-]; by exists cmd|]. by intros (? & [= <-] & _ & <-).
    + split; [done|]. by intros (? & [= <-] & ? & _).
  - split; [done|]. by intros (? & ? & _).
Qed.

(** What one entry of the setting adds, in terms of the commands. *)
Lemma entry_commands_elem commands s c :
  c ∈ entry_commands (app_instance_commands commands) s ↔
  ∃ n, registered commands (app_instance s) !! n = Some c
       ∧ (name s = EmptyString ∨ name s = n).
Proof.
  unfold entry_commands. rewrite app_instance_commands_lookup.
  destruct (decide (registered commands (app_instance s) = ∅)) as [Hnone|Hsome].
  { rewrite Hnone. split; [by intros []%elem_of_nil|].
    intros (n & Hn & _). by rewrite lookup_empty in Hn. }
  destruct (String.eqb (name s) EmptyString) eqn:Hname.
  - apply String.eqb_eq in Hname. unfold iteritems. rewrite list_elem_of_fmap. split.
    + intros ([n c'] & -> & Hin%elem_of_map_to_list). exists n. auto.
    + intros (n & Hn & _). exists (n, c). split; [done|]. by apply elem_of_map_to_list.
  - apply String.eqb_neq in Hname.
    destruct (registered commands (app_instance s) !! name s) as [f|] eqn:Hf.
    + rewrite list_elem_of_singleton. split.
      * intros ->. exists (name s). auto.
      * intros (n & Hn & [?| <-]); [done|]. congruence.
    + split; [by intros []%elem_of_nil|].
      intros (n & Hn & [?| <-]); [done|]. congruence.
Qed.

Lemma elem_of_concat_lists {A} (ls : list (list A)) x :
  x ∈ concat ls ↔ ∃ l, l ∈ ls ∧ x ∈ l.
Proof.
  induction ls as [|l ls IH]; cbn.
  - split; [by intros []%elem_of_nil|]. by intros (? & []%elem_of_nil & _).
  - rewrite elem_of_app, IH. split.
    + intros [?|(l' & ? & ?)]; [exists l; split; [left|done]|].
      exists l'. split; [by right|done].
    + intros (l' & [->|?]%elem_of_cons & ?); [by left|]. right. by exists l'.
Qed.

(** The third loop on a list of commands of which one raises. *)
Lemma invoke_until behaviour (l1 l2 : list nat) c x e :
  (∀ c', c' ∈ l1 → behaviour c' = Return tt) →
  behaviour c = Raise x →
  for_each (l1 ++ c :: l2) (invoke behaviour) e
  = (Raise x, Engine (log e) (invoked e ++ l1 ++ [c])).
Proof.
  revert e. induction l1 as [|c' l1 IH]; intros e Hok Hraise; cbn.
  - unfold bind, invoke at 1. by rewrite Hraise.
  - unfold bind, invoke at 1. rewrite (Hok c') by left.
    etrans; [apply IH; [intros; apply Hok; by right|done]|].
    cbn. by rewrite <- app_assoc.
Qed.

Lemma entry_log_levels engine_name commands s :
  let G := app_instance_commands commands in
  (entry_commands G s = []
   ∧ ∃ w, entry_log engine_name G s = [w] ∧ lvl w = WARNING)
  ∨ (entry_commands G s ≠ []
     ∧ Forall (λ x, lvl x = DEBUG) (entry_log engine_name G s)
     ∧ length (entry_log engine_name G s) = length (entry_commands G s)).
Proof.
  cbn zeta. unfold entry_commands, entry_log.
  rewrite app_instance_commands_lookup.
  destruct (decide (registered commands (app_instance s) = ∅)) as [Hnone|Hsome].
  { left. split; [done|]. by eexists. }
  destruct (String.eqb (name s) EmptyString).
  - right. split; [|split].
    + unfold iteritems. intros Hnil%fmap_nil_inv.
      by apply map_to_list_empty_iff in Hnil.
    + apply Forall_fmap, Forall_forall. done.
    + by rewrite !length_fmap.
  - destruct (registered commands (app_instance s) !! name s).
    + right. split; [done|]. split; [by repeat constructor|done].
    + left. split; [done|]. by eexists.
Qed.

End startup_further.

(** X14: the first loop groups the commands exactly: the dictionary filed
    under an app instance is never empty and holds, under each command
    name, the callback of the command of that name registered by that
    instance; an instance that registered no command has no dictionary. *)
Theorem app_instance_commands_exact (commands : gmap string Startup.command)
    (instance_name : string) :
  match Startup.app_instance_commands commands !! instance_name with
  | Some command_dict =>
      command_dict ≠ ∅
      ∧ ∀ n c, command_dict !! n = Some c ↔
               ∃ cmd, commands !! n = Some cmd
                      ∧ Startup.app cmd = Some instance_name
                      ∧ Startup.callback cmd = c
  | None =>
      ∀ n cmd, commands !! n = Some cmd → Startup.app cmd ≠ Some instance_name
  end.
Proof.
  rewrite app_instance_commands_lookup.
  destruct (decide (Startup.registered commands instance_name = ∅)) as [Hnone|Hsome].
  - intros n cmd Hn Happ.
    assert (Startup.registered commands instance_name !! n = Some (Startup.callback cmd))
      as Hreg by (apply registered_lookup; by exists cmd).
    by rewrite Hnone, lookup_empty in Hreg.
  - split; [done|]. intros n c. apply registered_lookup.
Qed.

(** X15: a callback is among the commands to run exactly when some entry
    of the setting names the app instance that registered it, with an empty
    command name or with the name of its command.  So a command registered
    without an app, or by an instance the setting does not list, is never
    run at start-up. *)
Theorem commands_to_run_exact (engine_name : string)
    (commands : gmap string Startup.command)
    (run_at_startup : list Startup.app_setting) (e : Startup.engine) (c : nat) :
  ∃ to_run,
    (Startup.commands_to_run engine_name commands run_at_startup e).1 = Return to_run
    ∧ (c ∈ to_run ↔
       ∃ s n cmd,
         s ∈ run_at_startup
         ∧ commands !! n = Some cmd
         ∧ Startup.app cmd = Some (Startup.app_instance s)
         ∧ Startup.callback cmd = c
         ∧ (Startup.name s = EmptyString ∨ Startup.name s = n)).
Proof.
  eexists. rewrite commands_to_run_unfold. split; [done|].
  rewrite elem_of_concat_lists. split.
  - intros (l & (s & -> & Hs)%list_elem_of_fmap & Hc).
    apply entry_commands_elem in Hc as (n & (cmd & ? & ? & ?)%registered_lookup & Hname).
    by exists s, n, cmd.
  - intros (s & n & cmd & Hs & Hn & Happ & Hcb & Hname).
    exists (Startup.entry_commands (Startup.app_instance_commands commands) s).
    split; [apply list_elem_of_fmap; by exists s|].
    apply entry_commands_elem. exists n. split; [|done].
    apply registered_lookup. by exists cmd.
Qed.

(** X16: the commands are invoked in order and nothing guards them: when
    one raises, the routine raises the same exception, the commands before
    it and that one have been invoked, and those after it have not. *)
Theorem run_stops_at_first_failure (engine_name : string)
    (commands : gmap string Startup.command)
    (run_at_startup : list Startup.app_setting) (behaviour : nat → result unit)
    (e : Startup.engine) (l1 l2 : list nat) (c : nat) (x : exn) :
  (Startup.commands_to_run engine_name commands run_at_startup e).1
  = Return (l1 ++ c :: l2) →
  (∀ c', c' ∈ l1 → behaviour c' = Return tt) →
  behaviour c = Raise x →
  let r := Startup._run_app_instance_commands engine_name commands run_at_startup
             behaviour e in
  r.1 = Raise x ∧ Startup.invoked r.2 = Startup.invoked e ++ l1 ++ [c].
Proof.
  intros Hrun Hok Hraise. cbn zeta.
  unfold Startup._run_app_instance_commands, bind.
  rewrite commands_to_run_unfold in *. cbn [fst] in Hrun.
  injection Hrun as Hrun. rewrite Hrun. cbn beta iota.
  by rewrite (invoke_until behaviour l1 l2 c x) by done.
Qed.

(** X17: resolving the setting logs one DEBUG record for each command to
    run and nothing else but warnings, and it logs no warning exactly when
    every entry of the setting matches a registered command. *)
Theorem startup_log_accounts (engine_name : string)
    (commands : gmap string Startup.command)
    (run_at_startup : list Startup.app_setting) (e : Startup.engine) :
  ∃ to_run l,
    Startup.commands_to_run engine_name commands run_at_startup e
    = (Return to_run, Startup.Engine (Startup.log e ++ l) (Startup.invoked e))
    ∧ (∀ x, x ∈ l → lvl x = DEBUG ∨ lvl x = WARNING)
    ∧ length (filter (λ x, lvl x = DEBUG) l) = length to_run
    ∧ (filter (λ x, lvl x = WARNING) l = [] ↔
       ∀ s, s ∈ run_at_startup →
            ∃ n cmd, commands !! n = Some cmd
                     ∧ Startup.app cmd = Some (Startup.app_instance s)
                     ∧ (Startup.name s = EmptyString ∨ Startup.name s = n)).
Proof.
  do 2 eexists. rewrite commands_to_run_unfold. split; [done|].
  assert (∀ s, Startup.entry_commands (Startup.app_instance_commands commands) s ≠ [] ↔
               ∃ n cmd, commands !! n = Some cmd
                        ∧ Startup.app cmd = Some (Startup.app_instance s)
                        ∧ (Startup.name s = EmptyString ∨ Startup.name s = n))
    as Hmatch.
  { intros s. split.
    - intros Hne. destruct (Startup.entry_commands (Startup.app_instance_commands commands) s) as [|c l] eqn:Hl; [done|].
      assert (c ∈ Startup.entry_commands (Startup.app_instance_commands commands) s) as Hc by (rewrite Hl; left).
      apply entry_commands_elem in Hc
          as (n & (cmd & ? & ? & ?)%registered_lookup & Hname).
      by exists n, cmd.
    - intros (n & cmd & Hn & Happ & Hname) Hnil.
      assert (Startup.callback cmd ∈ Startup.entry_commands (Startup.app_instance_commands commands) s) as Hc.
      { apply entry_commands_elem. exists n. split; [|done].
        apply registered_lookup. by exists cmd. }
      rewrite Hnil in Hc. by apply elem_of_nil in Hc. }
  induction run_at_startup as [|s settings IH]; cbn [fmap list_fmap concat].
  { split; [by intros x []%elem_of_nil|]. split; [done|].
    split; [by intros _ s []%elem_of_nil|done]. }
  destruct IH as (IHlvl & IHlen & IHwarn).
  rewrite !filter_app, !length_app.
  destruct (entry_log_levels engine_name commands s)
    as [(Hnil & w & Hlog & Hw)|(Hne & Hall & Hlen)].
  - rewrite Hlog, Hnil. split; [|split].
    + intros x [->%list_elem_of_singleton|?]%elem_of_app; [by right|by apply IHlvl].
    + rewrite filter_cons_False, filter_nil by (rewrite Hw; done). cbn. done.
    + rewrite filter_cons_True by done. split; [done|].
      intros Hall. assert (Startup.entry_commands (Startup.app_instance_commands commands) s ≠ []) as Hne.
      { apply Hmatch, Hall. left. }
      done.
  - rewrite Forall_forall in Hall. split; [|split].
    + intros x [?|?]%elem_of_app; [left; by apply Hall|by apply IHlvl].
    + assert (filter (λ x, lvl x = DEBUG) (Startup.entry_log engine_name (Startup.app_instance_commands commands) s)
              = Startup.entry_log engine_name (Startup.app_instance_commands commands) s) as ->.
      { clear -Hall. induction (Startup.entry_log engine_name (Startup.app_instance_commands commands) s) as [|x l IHl];
          [done|].
        rewrite filter_cons_True by (apply Hall; left).
        f_equal. apply IHl. intros y Hy. apply Hall. by right. }
      lia.
    + assert (filter (λ x, lvl x = WARNING) (Startup.entry_log engine_name (Startup.app_instance_commands commands) s) = [])
        as ->.
      { clear -Hall. induction (Startup.entry_log engine_name (Startup.app_instance_commands commands) s) as [|x l IHl];
          [done|].
        rewrite filter_cons_False by (rewrite (Hall x) by left; done).
        apply IHl. intros y Hy. apply Hall. by right. }
      cbn [app]. rewrite IHwarn. split.
      * intros Hrest s' [->|?]%elem_of_cons; [by apply Hmatch|by apply Hrest].
      * intros Hall' s' Hs'. apply Hall'. by right.
Qed.

(** ** [_emit_log_message] *)

Section logging.
Import Logging.

(** One record, in closed form. *)
Lemma emit_log_message_unfold record c :
  _emit_log_message record c =
  let msg := format (if levelno record <? INFO then "Debug: Shotgun " else "Shotgun ")
               record in
  (Return tt,
   Console (if levelno record >=? ERROR then dialogs c ++ [msg] else dialogs c)
     (printed c ++ [msg])).
Proof.
  unfold _emit_log_message, message_box, print. run_monad.
  destruct (levelno record <? INFO), (levelno record >=? ERROR); reflexivity.
Qed.

End logging.

(** X19: over a series of records the bridge keeps the order: the lines
    printed are those of the records, one each and in order, and the
    dialogs opened are, in the same order, those of the records at ERROR or
    above. *)
Theorem emit_all_in_order (records : list Logging.LogRecord) (c : Logging.console) :
  let line record :=
    Logging.format
      (if Logging.levelno record <? Logging.INFO then "Debug: Shotgun " else "Shotgun ")
      record in
  Logging.emit_all records c
  = (Return tt,
     Logging.Console
       (Logging.dialogs c
        ++ (line <$> filter (λ record, Logging.ERROR ≤ Logging.levelno record) records))
       (Logging.printed c ++ (line <$> records))).
Proof.
  cbn zeta. unfold Logging.emit_all. revert c.
  induction records as [|record records IH]; intros c; cbn [for_each].
  - unfold ret. cbn. rewrite !app_nil_r. by destruct c.
  - unfold bind. rewrite emit_log_message_unfold. cbn zeta beta iota. rewrite IH.
    cbn [Logging.dialogs Logging.printed fmap list_fmap].
    destruct (decide (Logging.ERROR ≤ Logging.levelno record)) as [Hge|Hlt].
    + rewrite filter_cons_True by done.
      rewrite (proj2 (Z.geb_le _ _) Hge). cbn. by rewrite <- !app_assoc.
    + rewrite filter_cons_False by done.
      destruct (_ >=? Logging.ERROR) eqn:Hgeb; [apply Z.geb_le in Hgeb; lia|].
      cbn. by rewrite <- !app_assoc.
Qed.

(** ** The engine life cycle *)

Section lifecycle.
Import Lifecycle.

(** The start-up dispatch inside the engine, in closed form. *)
Lemma run_commands_unfold cfg e :
  Lifecycle._run_app_instance_commands cfg e =
  let r := Startup._run_app_instance_commands (engine_name cfg) (commands cfg)
             (run_at_startup cfg) (behaviour cfg) (core e) in
  (r.1, Engine (inTerminalMode e) (menus e) (_menu_generator e) (generators e)
          (signal_calls e) r.2).
Proof.
  unfold Lifecycle._run_app_instance_commands, lift_core. cbn zeta.
  by destruct (Startup._run_app_instance_commands _ _ _ _ _).
Qed.

Lemma create_menu_unfold e : create_menu e = (Return tt, menu_after_create e).
Proof.
  unfold create_menu, has_ui, new_menu, menu_after_create. run_monad.
  destruct e as [[] ? ? ? ? ?]; reflexivity.
Qed.

Lemma post_app_init_unfold cfg e :
  post_app_init cfg e =
  Lifecycle._run_app_instance_commands cfg
    (let e1 := menu_after_create e in
     Engine (inTerminalMode e1) (menus e1) (_menu_generator e1) (generators e1)
       (signal_calls e1 ++ [Connect]) (core e1)).
Proof.
  unfold post_app_init, signal. run_monad. by rewrite create_menu_unfold.
Qed.

Lemma post_context_change_unfold cfg new_context e :
  post_context_change cfg new_context e =
  let e0 := logged_change new_context e in
  if inTerminalMode e then Lifecycle._run_app_instance_commands cfg e0
  else
    match _menu_generator e with
    | None =>
        (Raise (AttributeError
                  "'MariEngine' object has no attribute '_menu_generator'"), e0)
    | Some g =>
        Lifecycle._run_app_instance_commands cfg
          (Engine false (filter (λ m, m ≠ g) (menus e) ++ [S (generators e)])
             (Some (S (generators e))) (S (generators e)) (signal_calls e) (core e0))
    end.
Proof.
  unfold post_context_change, log_debug, lift_core, has_ui, destroy_menu,
    Startup.emit, logged_change.
  run_monad. cbn [core inTerminalMode _menu_generator].
  destruct e as [[] ms [g|] n sc c]; cbn [negb inTerminalMode _menu_generator];
    rewrite ?create_menu_unfold; reflexivity.
Qed.

Lemma destroy_engine_unfold e :
  destroy_engine e =
  let e0 := logged_destroy e in
  if inTerminalMode e then
    (Return tt,
     Engine true (menus e) (_menu_generator e) (generators e)
       (signal_calls e ++ [Disconnect]) (core e0))
  else
    match _menu_generator e with
    | None =>
        (Raise (AttributeError
                  "'MariEngine' object has no attribute '_menu_generator'"), e0)
    | Some g =>
        (Return tt,
         Engine false (filter (λ m, m ≠ g) (menus e)) (Some g) (generators e)
           (signal_calls e ++ [Disconnect]) (core e0))
    end.
Proof.
  unfold destroy_engine, log_debug, lift_core, has_ui, destroy_menu, signal,
    Startup.emit, logged_destroy.
  run_monad. cbn [core inTerminalMode _menu_generator].
  destruct e as [[] ms [g|] n sc c]; reflexivity.
Qed.

Lemma filter_only (g : nat) : filter (λ m, m ≠ g) [g] = [].
Proof. by rewrite filter_cons_False by (intros H; by apply H). Qed.

Lemma post_context_change_menu cfg new_context e :
  menu_in_place e → menu_in_place (post_context_change cfg new_context e).2.
Proof.
  unfold menu_in_place. rewrite post_context_change_unfold. cbn zeta.
  destruct (inTerminalMode e) eqn:Hterm.
  - rewrite run_commands_unfold. cbn. by rewrite Hterm.
  - intros (g & -> & -> & Hg). rewrite run_commands_unfold, filter_only.
    cbn. by eexists.
Qed.

Lemma post_context_change_signals cfg new_context e :
  signal_calls (post_context_change cfg new_context e).2 = signal_calls e.
Proof.
  rewrite post_context_change_unfold. cbn zeta.
  destruct (inTerminalMode e); [by rewrite run_commands_unfold|].
  destruct (_menu_generator e); [by rewrite run_commands_unfold|done].
Qed.

Lemma context_changes_menu changes e :
  menu_in_place e → menu_in_place (context_changes changes e).
Proof.
  revert e. induction changes as [|[cfg n] changes IH]; intros e He; [done|].
  cbn [context_changes]. by apply IH, post_context_change_menu.
Qed.

Lemma context_changes_signals changes e :
  signal_calls (context_changes changes e) = signal_calls e.
Proof.
  revert e. induction changes as [|[cfg n] changes IH]; intros e; [done|].
  cbn [context_changes]. by rewrite IH, post_context_change_signals.
Qed.

Lemma post_app_init_menu cfg e :
  menus e = [] → menu_in_place (post_app_init cfg e).2.
Proof.
  intros Hnone. unfold menu_in_place. rewrite post_app_init_unfold, run_commands_unfold.
  cbn. unfold menu_after_create.
  destruct (inTerminalMode e) eqn:Hterm; cbn; rewrite ?Hterm; [done|].
  rewrite Hnone. by eexists.
Qed.

End lifecycle.

(** X20: the toolkit menu does not pile up.  On a host without a toolkit
    menu, after [post_app_init] and any series of context changes, whatever
    the start-up commands did, there is no menu in terminal mode and with a
    user interface exactly one, that of the current menu generator; and
    [destroy_engine] then returns normally and leaves no menu behind. *)
Theorem lifecycle_one_menu (cfg : Lifecycle.config)
    (changes : list (Lifecycle.config * nat)) (e : Lifecycle.engine) :
  Lifecycle.menus e = [] →
  let e' := Lifecycle.context_changes changes (Lifecycle.post_app_init cfg e).2 in
  Lifecycle.menu_in_place e'
  ∧ (length (Lifecycle.menus e') = if Lifecycle.inTerminalMode e' then 0 else 1)%nat
  ∧ (Lifecycle.destroy_engine e').1 = Return tt
  ∧ Lifecycle.menus (Lifecycle.destroy_engine e').2 = [].
Proof.
  intros Hnone e'.
  assert (Lifecycle.menu_in_place e') as Hin.
  { by apply context_changes_menu, post_app_init_menu. }
  split; [done|]. unfold Lifecycle.menu_in_place in Hin.
  rewrite destroy_engine_unfold. cbn zeta.
  destruct (Lifecycle.inTerminalMode e').
  - by rewrite Hin.
  - destruct Hin as (g & -> & -> & _). by rewrite filter_only.
Qed.

(** X21: the project-opened handler is connected once for the life of the
    engine: [post_app_init] connects it, no context change touches the
    signal, and [destroy_engine] disconnects it. *)
Theorem lifecycle_connects_once (cfg : Lifecycle.config)
    (changes : list (Lifecycle.config * nat)) (e : Lifecycle.engine) :
  Lifecycle.menus e = [] →
  let e' := Lifecycle.context_changes changes (Lifecycle.post_app_init cfg e).2 in
  Lifecycle.signal_calls e' = Lifecycle.signal_calls e ++ [Lifecycle.Connect]
  ∧ Lifecycle.signal_calls (Lifecycle.destroy_engine e').2
    = Lifecycle.signal_calls e ++ [Lifecycle.Connect; Lifecycle.Disconnect].
Proof.
  intros Hnone e'.
  assert (Lifecycle.signal_calls e'
          = Lifecycle.signal_calls e ++ [Lifecycle.Connect]) as Hsig.
  { subst e'. rewrite context_changes_signals, post_app_init_unfold,
      run_commands_unfold. cbn. unfold Lifecycle.menu_after_create.
    by destruct (Lifecycle.inTerminalMode e). }
  split; [done|].
  assert (Lifecycle.menu_in_place e') as Hin.
  { by apply context_changes_menu, post_app_init_menu. }
  unfold Lifecycle.menu_in_place in Hin.
  rewrite destroy_engine_unfold. cbn zeta.
  destruct (Lifecycle.inTerminalMode e').
  - cbn. by rewrite Hsig, <- app_assoc.
  - destruct Hin as (g & -> & _). cbn. by rewrite Hsig, <- app_assoc.
Qed.

(** X22: every context change runs the start-up commands of the new
    context again: on an engine with its menu in place and commands that do
    not raise, [post_context_change] returns and has invoked, after those
    invoked before, all the commands to run, in order. *)
Theorem context_change_reruns_commands (cfg : Lifecycle.config) (new_context : nat)
    (e : Lifecycle.engine) (to_run : list nat) :
  Lifecycle.menu_in_place e →
  (Startup.commands_to_run (Lifecycle.engine_name cfg) (Lifecycle.commands cfg)
     (Lifecycle.run_at_startup cfg) (Lifecycle.core e)).1 = Return to_run →
  (∀ c, c ∈ to_run → Lifecycle.behaviour cfg c = Return tt) →
  let r := Lifecycle.post_context_change cfg new_context e in
  r.1 = Return tt
  ∧ Startup.invoked (Lifecycle.core r.2)
    = Startup.invoked (Lifecycle.core e) ++ to_run.
Proof.
  intros Hin Hrun Hok. cbn zeta.
  rewrite commands_to_run_unfold in Hrun. cbn [fst] in Hrun. injection Hrun as Hrun.
  assert (∀ core0,
            Startup.invoked core0 = Startup.invoked (Lifecycle.core e) →
            let r := Startup._run_app_instance_commands (Lifecycle.engine_name cfg)
                       (Lifecycle.commands cfg) (Lifecycle.run_at_startup cfg)
                       (Lifecycle.behaviour cfg) core0 in
            r.1 = Return tt
            ∧ Startup.invoked r.2 = Startup.invoked (Lifecycle.core e) ++ to_run)
    as Hcore.
  { intros core0 Hinv. cbn zeta.
    unfold Startup._run_app_instance_commands, bind.
    rewrite commands_to_run_unfold, Hrun. cbn beta iota.
    rewrite invoke_all by done. cbn. by rewrite Hinv. }
  unfold Lifecycle.menu_in_place in Hin.
  rewrite post_context_change_unfold. cbn zeta.
  destruct (Lifecycle.inTerminalMode e).
  - rewrite run_commands_unfold. cbn. by apply Hcore.
  - destruct Hin as (g & -> & _). rewrite run_commands_unfold. cbn. by apply Hcore.
Qed.

(** X23: with a user interface and no menu generator yet (the engine never
    went through [post_app_init]), [post_context_change] and
    [destroy_engine] raise AttributeError before they do anything but log:
    no menu changes, no command is invoked and the signal is not
    disconnected.  In terminal mode neither of them, nor [post_app_init],
    touches the menus or the generator, and [destroy_engine] returns. *)
Theorem lifecycle_without_generator (cfg : Lifecycle.config) (new_context : nat)
    (e : Lifecycle.engine) :
  (Lifecycle.inTerminalMode e = false → Lifecycle._menu_generator e = None →
     let r := Lifecycle.post_context_change cfg new_context e in
     let d := Lifecycle.destroy_engine e in
     (∃ msg, r.1 = Raise (AttributeError msg))
     ∧ Lifecycle.menus r.2 = Lifecycle.menus e
     ∧ Startup.invoked (Lifecycle.core r.2) = Startup.invoked (Lifecycle.core e)
     ∧ (∃ msg, d.1 = Raise (AttributeError msg))
     ∧ Lifecycle.signal_calls d.2 = Lifecycle.signal_calls e)
  ∧ (Lifecycle.inTerminalMode e = true →
     let untouched (e' : Lifecycle.engine) :=
       Lifecycle.menus e' = Lifecycle.menus e
       ∧ Lifecycle._menu_generator e' = Lifecycle._menu_generator e
       ∧ Lifecycle.generators e' = Lifecycle.generators e in
     untouched (Lifecycle.post_app_init cfg e).2
     ∧ untouched (Lifecycle.post_context_change cfg new_context e).2
     ∧ untouched (Lifecycle.destroy_engine e).2
     ∧ (Lifecycle.destroy_engine e).1 = Return tt).
Proof.
  split.
  - intros Hui Hnone. cbn zeta.
    rewrite post_context_change_unfold, destroy_engine_unfold. cbn zeta.
    rewrite Hui, Hnone. cbn. repeat split; by eexists.
  - intros Hterm. cbn zeta.
    rewrite post_app_init_unfold, post_context_change_unfold, destroy_engine_unfold.
    cbn zeta. rewrite !run_commands_unfold. unfold Lifecycle.menu_after_create.
    rewrite Hterm. cbn. done.
Qed.

(** ** The project-saved handler *)

Section project_saved.
Import ProjectSaved.

Lemma on_project_saved_unfold w s :
  __on_project_saved w s =
  if bool_decide (saved_metadata w = ∅) then (Return tt, s)
  else
    match apps w !! "tk-multi-workfiles2", apps w !! "tk-mari-projectmanager" with
    | Some workfiles_app, Some proj_mgr_app =>
        let t := get_template proj_mgr_app "template_new_project_name" in
        if validate t (project_name w) then
          match apply_fields (get_template workfiles_app "template_work")
                  (work_fields w t) with
          | Return path =>
              (Return tt,
               Engine (log s ++ [Log DEBUG "Exporting mari session file to: %s" [path]])
                 (exported s ++ [path]))
          | Raise x => (Raise x, s)
          end
        else (Return tt, s)
    | _, _ =>
        (Return tt,
         Engine (log s ++
                 [Log Py.ERROR
                    "Unable to find workfiles or projectmanager app. Not exporting msf file."
                    []])
           (exported s))
    end.
Proof.
  unfold __on_project_saved, emit, exportSession. run_monad.
  destruct (bool_decide _); [done|].
  destruct (apps w !! "tk-multi-workfiles2") as [wa|],
    (apps w !! "tk-mari-projectmanager") as [pa|]; try reflexivity.
  cbn zeta. destruct (validate _ _); cbn [negb]; [|reflexivity].
  by destruct (apply_fields _ _).
Qed.

Lemma snoc_neq {A} (l : list A) x : l ++ [x] ≠ l.
Proof. intros H%(f_equal length). rewrite length_app in H. cbn in H. lia. Qed.

End project_saved.

(** A list is not itself with one more element. *)
Ltac no_export :=
  let Hx := fresh "Hx" in
  cbn; intros Hx; apply symmetry in Hx; by apply snoc_neq in Hx.

(** X24: the project-saved handler hands at most one path to
    [exportSession], and it hands over a path exactly when the project
    carries metadata, both the workfiles and the project manager apps are
    loaded, the project name validates against the project-name template
    and the work template yields that path.  Without metadata, and with a
    name that does not validate, it returns having exported and logged
    nothing; with an app missing it logs one error and exports nothing.
    The world records what the calls on the toolkit and the host returned,
    so the statement speaks of the runs in which they return. *)
Theorem on_project_saved_exports (w : ProjectSaved.world) (s : ProjectSaved.engine) :
  let r := ProjectSaved.__on_project_saved w s in
  let ready path :=
    ProjectSaved.saved_metadata w ≠ ∅
    ∧ ∃ workfiles_app proj_mgr_app,
        ProjectSaved.apps w !! "tk-multi-workfiles2" = Some workfiles_app
        ∧ ProjectSaved.apps w !! "tk-mari-projectmanager" = Some proj_mgr_app
        ∧ ProjectSaved.validate
            (ProjectSaved.get_template proj_mgr_app "template_new_project_name")
            (ProjectSaved.project_name w) = true
        ∧ ProjectSaved.apply_fields
            (ProjectSaved.get_template workfiles_app "template_work")
            (ProjectSaved.work_fields w
               (ProjectSaved.get_template proj_mgr_app "template_new_project_name"))
          = Return path in
  (∀ path, ProjectSaved.exported r.2 = ProjectSaved.exported s ++ [path] ↔ ready path)
  ∧ ((∀ path, ¬ ready path) →
     ProjectSaved.exported r.2 = ProjectSaved.exported s)
  ∧ (ProjectSaved.exported r.2 = ProjectSaved.exported s
     ∨ ∃ path, ProjectSaved.exported r.2 = ProjectSaved.exported s ++ [path])
  ∧ (ProjectSaved.saved_metadata w = ∅ → r = (Return tt, s))
  ∧ (∀ workfiles_app proj_mgr_app,
       ProjectSaved.apps w !! "tk-multi-workfiles2" = Some workfiles_app →
       ProjectSaved.apps w !! "tk-mari-projectmanager" = Some proj_mgr_app →
       ProjectSaved.validate
         (ProjectSaved.get_template proj_mgr_app "template_new_project_name")
         (ProjectSaved.project_name w) = false →
       r = (Return tt, s))
  ∧ (ProjectSaved.saved_metadata w ≠ ∅ →
     ProjectSaved.apps w !! "tk-multi-workfiles2" = None
     ∨ ProjectSaved.apps w !! "tk-mari-projectmanager" = None →
     r.1 = Return tt
     ∧ ProjectSaved.exported r.2 = ProjectSaved.exported s
     ∧ ∃ x, ProjectSaved.log r.2 = ProjectSaved.log s ++ [x] ∧ lvl x = Py.ERROR).
Proof.
  cbn zeta. rewrite on_project_saved_unfold.
  case_bool_decide as Hmd.
  { split; [|split; [|split; [|split; [|split]]]]; try done.
    - intros path. split; [no_export|by intros [? _]].
    - by left. }
  destruct (ProjectSaved.apps w !! "tk-multi-workfiles2") as [wa|] eqn:Hwa,
    (ProjectSaved.apps w !! "tk-mari-projectmanager") as [pa|] eqn:Hpa.
  2-4: split; [|split; [|split; [|split; [|split]]]]; try done;
    [intros path; split; [no_export|by intros (_ & ? & ? & ? & ? & _)]
    |by left
    |intros _ _; split; [done|]; split; [done|]; by eexists].
  cbn zeta. destruct (ProjectSaved.validate _ _) eqn:Hval.
  2:{ split; [|split; [|split; [|split; [|split]]]]; try done.
      - intros path. split; [no_export|].
        intros (_ & ? & ? & ? & ? & ? & _); simplify_eq; congruence.
      - by left.
      - by intros _ [?|?]. }
  destruct (ProjectSaved.apply_fields _ _) as [path|x] eqn:Happly.
  - split; [|split; [|split; [|split; [|split]]]]; try done.
    + intros path'. cbn. split.
      * intros [= ->]%app_inv_head. split; [done|]. by exists wa, pa.
      * intros (_ & ? & ? & ? & ? & _ & Hp); simplify_eq. congruence.
    + intros Hno. destruct (Hno path). split; [done|]. by exists wa, pa.
    + right. by exists path.
    + intros ? ? [= <-] [= <-] ?. congruence.
    + by intros _ [?|?].
  - split; [|split; [|split; [|split; [|split]]]]; try done.
    + intros path'. split; [no_export|].
      intros (_ & ? & ? & ? & ? & _ & Hp); simplify_eq; congruence.
    + by left.
    + intros ? ? [= <-] [= <-] ?. congruence.
    + by intros _ [?|?].
Qed.

(** X25: the fields the work template is applied to always carry the stored
    version of the project under version, whatever the project name and the
    context say; under any other key the field parsed from the project name
    wins over that of the context. *)
Theorem on_project_saved_fields (w : ProjectSaved.world) (s : ProjectSaved.engine)
    (path : string) :
  ProjectSaved.exported (ProjectSaved.__on_project_saved w s).2
  = ProjectSaved.exported s ++ [path] →
  ∃ workfiles_app proj_mgr_app fields,
    ProjectSaved.apps w !! "tk-multi-workfiles2" = Some workfiles_app
    ∧ ProjectSaved.apps w !! "tk-mari-projectmanager" = Some proj_mgr_app
    ∧ ProjectSaved.apply_fields
        (ProjectSaved.get_template workfiles_app "template_work") fields
      = Return path
    ∧ fields !! "version" = Some (ProjectSaved.project_version w)
    ∧ ∀ key, key ≠ "version" →
        fields !! key =
        match ProjectSaved.get_fields
                (ProjectSaved.get_template proj_mgr_app "template_new_project_name")
                (ProjectSaved.project_name w) !! key with
        | Some v => Some v
        | None => ProjectSaved.context_fields w !! key
        end.
Proof.
  rewrite on_project_saved_unfold.
  case_bool_decide as Hmd; [no_export|].
  destruct (ProjectSaved.apps w !! "tk-multi-workfiles2") as [wa|],
    (ProjectSaved.apps w !! "tk-mari-projectmanager") as [pa|];
    try no_export.
  cbn zeta. destruct (ProjectSaved.validate _ _); [|no_export].
  destruct (ProjectSaved.apply_fields _ _) as [path'|x] eqn:Happly; [|no_export].
  intros [= ->]%app_inv_head. eexists wa, pa, _.
  split; [done|]. split; [done|]. split; [exact Happly|].
  unfold ProjectSaved.work_fields. split; [by rewrite lookup_insert_eq|].
  intros key Hkey. rewrite lookup_insert_ne by done.
  rewrite lookup_union. by destruct (_ !! key), (_ !! key).
Qed.

(** * The statements at concrete inputs *)

Lemma pre_app_init_version_gate_witness :
  let s := PreAppInit.State ∅ [] [] false in
  (PreAppInit.pre_app_init (PreAppInit.Host (Return (Version 2 5 3)) false 4) s).1
  = Raise (TankError (PreAppInit.unsupported_message (Version 2 5 3)))
  ∧ (PreAppInit.pre_app_init (PreAppInit.Host (Return (Version 3 1 0)) false 4) s).1
    = Return tt
  ∧ PreAppInit.messages
      (PreAppInit.pre_app_init (PreAppInit.Host (Return (Version 4 3 0)) false 4) s).2
    = [] ++ [(PreAppInit.untested_message (Version 4 3 0), "Shotgun")].
Proof.
  cbn zeta. split; [|split].
  - destruct (pre_app_init_version_gate
                (PreAppInit.Host (Return (Version 2 5 3)) false 4)
                (PreAppInit.State ∅ [] [] false) (Version 2 5 3) eq_refl)
      as (Hlow & _).
    apply Hlow. unfold PreAppInit.below_2_6. cbn [major minor]. lia.
  - destruct (pre_app_init_version_gate
                (PreAppInit.Host (Return (Version 3 1 0)) false 4)
                (PreAppInit.State ∅ [] [] false) (Version 3 1 0) eq_refl)
      as (_ & Hmid & _).
    apply Hmid.
    + unfold PreAppInit.at_least_2_6_1. cbn [major minor revision]. lia.
    + unfold PreAppInit.at_most_4_2. cbn [major minor]. lia.
  - destruct (pre_app_init_version_gate
                (PreAppInit.Host (Return (Version 4 3 0)) false 4)
                (PreAppInit.State ∅ [] [] false) (Version 4 3 0) eq_refl)
      as (_ & _ & Hhigh & _).
    destruct Hhigh as (_ & _ & Hdue & _).
    + unfold PreAppInit.above_4_2. cbn [major minor]. lia.
    + apply Hdue. apply (bool_decide_unpack _). vm_compute. exact I.
Defined.

Lemma show_panel_refused_witness :
  let h := Panel.Host (Version 3 2 1)
             [Panel.Widget 1 "MainWindow" Panel.NoParent 0] ∅ [] [] in
  Panel.show_panel "p" "Panel" "app" (Panel.WidgetClass "panel_p" 7) h
  = (Raise (AttributeError (Panel.refusal_message (Version 3 2 1))), h).
Proof.
  cbn zeta.
  apply (show_panel_refused "p" "Panel" "app" (Panel.WidgetClass "panel_p" 7)
           (Panel.Host (Version 3 2 1)
              [Panel.Widget 1 "MainWindow" Panel.NoParent 0] ∅ [] [])).
  cbn [Panel.app_version major]. lia.
Defined.


Lemma ctx_entity_priority_witness :
  ProjectOpened.ctx_entity {[ "task_id" := VInt 7; "project_id" := VInt 65 ]}
  = Some (ProjectOpened.Entity (VStr "Task") (VInt 7))
  ∧ ProjectOpened.ctx_entity
      {[ "entity_id" := VInt 3; "entity_type" := VStr "Asset"; "project_id" := VInt 65 ]}
    = Some (ProjectOpened.Entity (VStr "Asset") (VInt 3))
  ∧ ProjectOpened.ctx_entity {[ "entity_id" := VInt 3; "project_id" := VInt 65 ]}
    = Some (ProjectOpened.Entity (VStr "Project") (VInt 65))
  ∧ ProjectOpened.ctx_entity {[ "version" := VInt 2 ]} = None.
Proof.
  split; [|split; [|split]].
  - destruct (ctx_entity_priority {[ "task_id" := VInt 7; "project_id" := VInt 65 ]})
      as (_ & _ & _ & H7 & _).
    apply H7. vm_compute. reflexivity.
  - destruct (ctx_entity_priority
                {[ "entity_id" := VInt 3; "entity_type" := VStr "Asset";
                   "project_id" := VInt 65 ]})
      as (_ & Hentity & _).
    apply Hentity.
    + vm_compute. discriminate.
    + vm_compute. reflexivity.
    + vm_compute. reflexivity.
  - destruct (ctx_entity_priority {[ "entity_id" := VInt 3; "project_id" := VInt 65 ]})
      as (_ & _ & Hproject & _).
    apply Hproject.
    + vm_compute. discriminate.
    + vm_compute. intros [_ H]. discriminate H.
    + vm_compute. reflexivity.
  - destruct (ctx_entity_priority {[ "version" := VInt 2 ]})
      as (_ & _ & _ & _ & Hnone).
    apply Hnone.
    + vm_compute. discriminate.
    + vm_compute. intros [H _]. discriminate H.
    + vm_compute. discriminate.
Defined.

Lemma ctx_entity_truthiness_witness :
  ProjectOpened.ctx_entity
    {[ "task_id" := VInt 0; "entity_id" := VInt 3; "entity_type" := VStr "Asset" ]}
  = ProjectOpened.ctx_entity
      (delete "task_id"
         ({[ "task_id" := VInt 0; "entity_id" := VInt 3; "entity_type" := VStr "Asset" ]}
            : gmap string value))
  ∧ ProjectOpened.ctx_entity
      {[ "task_id" := VInt 0; "entity_id" := VInt 3; "entity_type" := VStr "Asset" ]}
    = Some (ProjectOpened.Entity (VStr "Asset") (VInt 3))
  ∧ ProjectOpened.ctx_entity {[ "entity_id" := VInt 0; "project_id" := VInt 65 ]}
    = Some (ProjectOpened.Entity (VStr "Project") (VInt 65)).
Proof.
  split; [|split].
  - destruct (ctx_entity_truthiness
                {[ "task_id" := VInt 0; "entity_id" := VInt 3;
                   "entity_type" := VStr "Asset" ]}) as (Hdelete & _).
    apply Hdelete. vm_compute. discriminate.
  - destruct (ctx_entity_truthiness
                {[ "task_id" := VInt 0; "entity_id" := VInt 3;
                   "entity_type" := VStr "Asset" ]}) as (_ & Hzero & _).
    apply Hzero.
    + left. vm_compute. reflexivity.
    + vm_compute. reflexivity.
    + vm_compute. reflexivity.
  - destruct (ctx_entity_truthiness {[ "entity_id" := VInt 0; "project_id" := VInt 65 ]})
      as (_ & _ & Hzero).
    apply Hzero.
    + vm_compute. discriminate.
    + vm_compute. reflexivity.
    + vm_compute. reflexivity.
Defined.

Lemma on_project_opened_unmanaged_witness :
  let tk := ProjectOpened.Sgtk (λ _ _, Return 2%nat) (λ _, Return tt) in
  let s := ProjectOpened.Engine 1%nat
             {[ 5%nat := {[ "task_id" := VInt 7 ]} ]} [] [] in
  (ProjectOpened.__on_project_opened tk 5%nat true s).1 = Return tt
  ∧ ProjectOpened.same_but_log s (ProjectOpened.__on_project_opened tk 5%nat true s).2
  ∧ (ProjectOpened.__on_project_opened tk 6%nat false s).1 = Return tt
  ∧ ProjectOpened.same_but_log s (ProjectOpened.__on_project_opened tk 6%nat false s).2.
Proof.
  cbn zeta.
  set (tk := ProjectOpened.Sgtk (λ _ _, Return 2%nat) (λ _, Return tt)).
  set (s := ProjectOpened.Engine 1%nat {[ 5%nat := {[ "task_id" := VInt 7 ]} ]} [] []).
  destruct (on_project_opened_unmanaged tk 5%nat true s (or_introl eq_refl))
    as [Hnew Hnew'].
  assert (ProjectOpened.project_metadata s 6%nat = ∅) as Hempty
    by (vm_compute; reflexivity).
  destruct (on_project_opened_unmanaged tk 6%nat false s (or_intror Hempty))
    as [Hnone Hnone'].
  split; [exact Hnew|]. split; [exact Hnew'|]. split; [exact Hnone|exact Hnone'].
Defined.

Lemma version_stamp_witness :
  let tk := ProjectOpened.Sgtk (λ _ _, Return 2%nat) (λ _, Return tt) in
  let s := ProjectOpened.Engine 1%nat
             {[ 5%nat := {[ "task_id" := VInt 7 ]};
                6%nat := {[ "task_id" := VInt 8; "version" := VInt 5 ]} ]} [] [] in
  ProjectOpened.project_metadata (ProjectOpened.__on_project_opened tk 5%nat false s).2 5%nat
  = <["version" := VInt 1]> {[ "task_id" := VInt 7 ]}
  ∧ ProjectOpened.metadata (ProjectOpened.__on_project_opened tk 6%nat false s).2
    = ProjectOpened.metadata s.
Proof.
  cbn zeta.
  set (tk := ProjectOpened.Sgtk (λ _ _, Return 2%nat) (λ _, Return tt)).
  set (s := ProjectOpened.Engine 1%nat
              {[ 5%nat := {[ "task_id" := VInt 7 ]};
                 6%nat := {[ "task_id" := VInt 8; "version" := VInt 5 ]} ]} [] []).
  split.
  - assert (ProjectOpened.project_metadata s 5%nat ≠ ∅) as Hmd
      by (vm_compute; discriminate).
    destruct (version_stamp tk 5%nat false s Hmd) as (_ & Hopened & _).
    destruct (Hopened eq_refl) as (Habsent & _).
    etrans; [apply Habsent; vm_compute; reflexivity|].
    vm_compute. reflexivity.
  - assert (ProjectOpened.project_metadata s 6%nat ≠ ∅) as Hmd
      by (vm_compute; discriminate).
    destruct (version_stamp tk 6%nat false s Hmd) as (_ & Hopened & _).
    destruct (Hopened eq_refl) as (_ & _ & _ & _ & Hfive).
    apply Hfive. vm_compute. reflexivity.
Defined.

Lemma on_project_opened_abort_paths_witness :
  let tk := ProjectOpened.Sgtk (λ _ _, Raise (TankError "no such entity"))
              (λ _, Return tt) in
  let s := ProjectOpened.Engine 1%nat
             {[ 5%nat := {[ "task_id" := VInt 7; "version" := VInt 1 ]} ]} [] [] in
  (ProjectOpened.__on_project_opened tk 5%nat false s).1 = Return tt
  ∧ ProjectOpened.context (ProjectOpened.__on_project_opened tk 5%nat false s).2 = 1%nat.
Proof.
  cbn zeta.
  set (tk := ProjectOpened.Sgtk (λ _ _, Raise (TankError "no such entity"))
               (λ _, Return tt)).
  set (s := ProjectOpened.Engine 1%nat
              {[ 5%nat := {[ "task_id" := VInt 7; "version" := VInt 1 ]} ]} [] []).
  destruct (on_project_opened_abort_paths tk 5%nat false s) as [Habort _].
  destruct Habort as (Hr & Hc & _).
  - right. right. right.
    exists (ProjectOpened.Entity (VStr "Task") (VInt 7)), "no such entity".
    split; vm_compute; reflexivity.
  - split; [exact Hr|exact Hc].
Defined.

Lemma run_at_startup_dispatch_witness :
  let commands : gmap string Startup.command :=
    {[ "x" := Startup.Command (Some "A") 1; "y" := Startup.Command (Some "A") 2;
       "doit" := Startup.Command (Some "B") 3; "misc" := Startup.Command None 4 ]} in
  let e := Startup.Engine [] [] in
  (∃ l, l ≡ₚ [1%nat; 2%nat]
        ∧ (Startup.commands_to_run "tk-mari" commands
             [Startup.AppSetting "A" EmptyString; Startup.AppSetting "B" "doit"] e).1
          = Return (l ++ [3%nat]))
  ∧ Startup.commands_to_run "tk-mari" commands [Startup.AppSetting "C" "doit"] e
    = (Return [],
       Startup.Engine
         ([] ++ [Startup.not_installed "tk-mari" (Startup.AppSetting "C" "doit")]) [])
  ∧ lvl (Startup.not_installed "tk-mari" (Startup.AppSetting "C" "doit")) = WARNING
  ∧ (Startup.commands_to_run "tk-mari" commands [Startup.AppSetting "B" "doit"] e).1
    = Return [3%nat].
Proof.
  cbn zeta.
  set (commands := ({[ "x" := Startup.Command (Some "A") 1;
                       "y" := Startup.Command (Some "A") 2;
                       "doit" := Startup.Command (Some "B") 3;
                       "misc" := Startup.Command None 4 ]}
                      : gmap string Startup.command)).
  destruct (run_at_startup_dispatch "tk-mari" commands (Startup.Engine [] []))
    as (Hexample & _ & Hmissing & _ & _ & Hnamed).
  destruct (Hmissing (Startup.AppSetting "C" "doit")) as [Hskipped Hwarning];
    [vm_compute; reflexivity|].
  split; [|split; [exact Hskipped|split; [exact Hwarning|]]].
  - destruct (Hexample 1%nat 2%nat 3%nat) as (l & Hl & Hrun & _).
    + vm_compute. reflexivity.
    + vm_compute. reflexivity.
    + exists l. split; [exact Hl|exact Hrun].
  - apply (Hnamed (Startup.AppSetting "B" "doit") 3%nat).
    + cbn [Startup.name]. discriminate.
    + vm_compute. reflexivity.
Defined.

Lemma pre_app_init_failure_atomic_witness :
  let h := PreAppInit.Host (Return (Version 2 5 3)) false 4 in
  let s := PreAppInit.State ∅ [] [] false in
  PreAppInit.messages (PreAppInit.pre_app_init h s).2 = PreAppInit.messages s
  ∧ PreAppInit.managers_cached (PreAppInit.pre_app_init h s).2 = false.
Proof.
  cbn zeta.
  destruct (pre_app_init_failure_atomic
              (PreAppInit.Host (Return (Version 2 5 3)) false 4)
              (PreAppInit.State ∅ [] [] false)) as [Hfail _].
  destruct (Hfail (TankError (PreAppInit.unsupported_message (Version 2 5 3))))
    as (Hm & _ & Hc & _).
  - vm_compute. reflexivity.
  - split; [exact Hm|exact Hc].
Defined.

Lemma pre_app_init_terminal_mode_witness :
  let hs := [PreAppInit.Host (Return (Version 5 0 0)) true 4;
             PreAppInit.Host (Return (Version 4 3 1)) true 0] in
  let s := PreAppInit.State ∅ [] [] false in
  PreAppInit.messages (PreAppInit.starts hs s) = PreAppInit.messages s
  ∧ PreAppInit.environ (PreAppInit.starts hs s) = PreAppInit.environ s.
Proof.
  cbn zeta. apply pre_app_init_terminal_mode.
  apply Forall_forall. repeat constructor.
Defined.

Lemma pre_app_init_ignores_revision_witness :
  let h := PreAppInit.Host (Return (Version 2 6 0)) false 4 in
  let h' := PreAppInit.Host (Return (Version 2 6 1)) false 4 in
  let s := PreAppInit.State ∅ [] [] false in
  (raises (PreAppInit.pre_app_init h s).1 ↔ raises (PreAppInit.pre_app_init h' s).1)
  ∧ PreAppInit.environ (PreAppInit.pre_app_init h s).2
    = PreAppInit.environ (PreAppInit.pre_app_init h' s).2
  ∧ length (PreAppInit.messages (PreAppInit.pre_app_init h s).2)
    = length (PreAppInit.messages (PreAppInit.pre_app_init h' s).2)
  ∧ PreAppInit.managers_cached (PreAppInit.pre_app_init h s).2
    = PreAppInit.managers_cached (PreAppInit.pre_app_init h' s).2.
Proof.
  cbn zeta.
  apply (pre_app_init_ignores_revision
           (PreAppInit.Host (Return (Version 2 6 0)) false 4)
           (PreAppInit.Host (Return (Version 2 6 1)) false 4)
           (PreAppInit.State ∅ [] [] false) (Version 2 6 0) (Version 2 6 1));
    reflexivity.
Defined.

Lemma inherited_flag_silences_dialog_witness :
  let hs := [PreAppInit.Host (Return (Version 5 0 0)) false 4] in
  let s := PreAppInit.State {[ "SGTK_MARI_VERSION_WARNING_SHOWN" := "1" ]} [] [] false in
  PreAppInit.messages (PreAppInit.starts hs s) = PreAppInit.messages s
  ∧ PreAppInit.SGTK_MARI_VERSION_WARNING_SHOWN
    ∈ dom (PreAppInit.environ (PreAppInit.starts hs s)).
Proof.
  cbn zeta. apply inherited_flag_silences_dialog.
  apply (bool_decide_unpack _). vm_compute. exact I.
Defined.

Lemma show_panel_outcomes_witness :
  let h := Panel.Host (Version 4 0 1)
             [Panel.Widget 1 "Toolbar" Panel.NoParent 0] ∅ [] [] in
  let r := Panel.show_panel "p" "Panel" "app" (Panel.WidgetClass "AppDialog" 9) h in
  r.1 = Raise (Exception "Unable to get the 'MainWindow' widget!")
  ∧ Panel.widgets r.2 = Panel.widgets h
  ∧ Panel.palettes r.2 = Panel.palettes h
  ∧ Panel.calls r.2 = Panel.calls h ++ [Panel.AllWidgets].
Proof.
  cbn zeta.
  destruct (show_panel_outcomes "p" "Panel" "app" (Panel.WidgetClass "AppDialog" 9)
              (Panel.Host (Version 4 0 1)
                 [Panel.Widget 1 "Toolbar" Panel.NoParent 0] ∅ [] []))
    as [Hnone _].
  - cbn [Panel.app_version major]. lia.
  - apply Hnone. apply Forall_forall. repeat constructor. discriminate.
Defined.

Lemma show_panel_last_named_wins_witness :
  let h := Panel.Host (Version 4 0 1)
             [Panel.Widget 1 "MainWindow" Panel.NoParent 0;
              Panel.Widget 2 "panel_p" Panel.NoParent 7;
              Panel.Widget 3 "panel_p" Panel.NoParent 8] ∅ [] [] in
  3%nat = Panel.wid (Panel.Widget 3 "panel_p" Panel.NoParent 8).
Proof.
  cbn zeta.
  apply (show_panel_last_named_wins "p" "Panel" "app" (Panel.WidgetClass "AppDialog" 9)
           (Panel.Host (Version 4 0 1)
              [Panel.Widget 1 "MainWindow" Panel.NoParent 0;
               Panel.Widget 2 "panel_p" Panel.NoParent 7;
               Panel.Widget 3 "panel_p" Panel.NoParent 8] ∅ [] [])
           [Panel.Widget 1 "MainWindow" Panel.NoParent 0;
            Panel.Widget 2 "panel_p" Panel.NoParent 7] []).
  - reflexivity.
  - reflexivity.
  - apply Forall_forall. constructor.
  - vm_compute. reflexivity.
Defined.


Lemma show_panel_constructs_once_witness :
  let h := Panel.Host (Version 4 0 1)
             [Panel.Widget 1 "MainWindow" Panel.NoParent 0] ∅ [] [] in
  let r := Panel.show_panel "p" "Panel" "app" (Panel.WidgetClass "AppDialog" 9) h in
  Panel.live r.2 2 "AppDialog" 9
  ∧ (length (Panel.widgets r.2) ≤ 2)%nat.
Proof.
  cbn zeta.
  set (h := Panel.Host (Version 4 0 1)
              [Panel.Widget 1 "MainWindow" Panel.NoParent 0] ∅ [] []).
  assert ((Panel.show_panel "p" "Panel" "app" (Panel.WidgetClass "AppDialog" 9) h).1
          = Return 2%nat) as Hr by (vm_compute; reflexivity).
  destruct (show_panel_constructs_once "p" "Panel" "app"
              (Panel.WidgetClass "AppDialog" 9) h 2%nat) as (_ & Hlive & _ & Hlen).
  - apply Forall_forall. repeat constructor. discriminate.
  - exact Hr.
  - split; [exact Hlive|exact Hlen].
Defined.

Lemma on_project_opened_switches_witness :
  let tk := ProjectOpened.Sgtk (λ _ _, Return 2%nat) (λ _, Return tt) in
  let s := ProjectOpened.Engine 1%nat
             {[ 5%nat := {[ "task_id" := VInt 7; "version" := VInt 1 ]} ]} [] [] in
  let r := ProjectOpened.__on_project_opened tk 5%nat false s in
  r.1 = Return tt
  ∧ ProjectOpened.context r.2 = 2%nat
  ∧ ProjectOpened.switches r.2 = ProjectOpened.switches s ++ [2%nat]
  ∧ last (ProjectOpened.log r.2)
    = Some (Log DEBUG "Changing the engine context to Work Area: %s" [pretty 2%nat]).
Proof.
  cbn zeta.
  apply (on_project_opened_switches
           (ProjectOpened.Sgtk (λ _ _, Return 2%nat) (λ _, Return tt)) 5%nat
           (ProjectOpened.Engine 1%nat
              {[ 5%nat := {[ "task_id" := VInt 7; "version" := VInt 1 ]} ]} [] [])
           (ProjectOpened.Entity (VStr "Task") (VInt 7)) 2%nat).
  - vm_compute. discriminate.
  - vm_compute. reflexivity.
  - reflexivity.
  - cbn [ProjectOpened.context]. lia.
  - reflexivity.
Defined.

Lemma on_project_opened_at_most_one_switch_witness :
  let tk := ProjectOpened.Sgtk (λ _ _, Return 1%nat) (λ _, Return tt) in
  let s := ProjectOpened.Engine 1%nat
             {[ 5%nat := {[ "task_id" := VInt 7; "version" := VInt 1 ]} ]} [] [] in
  let r := ProjectOpened.__on_project_opened tk 5%nat false s in
  r.1 = Return tt
  ∧ ProjectOpened.context r.2 = ProjectOpened.context s
  ∧ ProjectOpened.switches r.2 = ProjectOpened.switches s.
Proof.
  cbn zeta.
  destruct (on_project_opened_at_most_one_switch
              (ProjectOpened.Sgtk (λ _ _, Return 1%nat) (λ _, Return tt)) 5%nat false
              (ProjectOpened.Engine 1%nat
                 {[ 5%nat := {[ "task_id" := VInt 7; "version" := VInt 1 ]} ]} [] []))
    as [_ Hsame].
  apply (Hsame (ProjectOpened.Entity (VStr "Task") (VInt 7))).
  - vm_compute. reflexivity.
  - reflexivity.
Defined.

Lemma on_project_opened_writes_only_version_witness :
  let tk := ProjectOpened.Sgtk (λ _ _, Return 2%nat) (λ _, Return tt) in
  let s := ProjectOpened.Engine 1%nat {[ 5%nat := {[ "task_id" := VInt 7 ]} ]} [] [] in
  ProjectOpened.project_metadata (ProjectOpened.__on_project_opened tk 5%nat false s).2
    5%nat !! "task_id"
  = ProjectOpened.project_metadata s 5%nat !! "task_id".
Proof.
  cbn zeta.
  apply (on_project_opened_writes_only_version
           (ProjectOpened.Sgtk (λ _ _, Return 2%nat) (λ _, Return tt)) 5%nat 5%nat false
           (ProjectOpened.Engine 1%nat {[ 5%nat := {[ "task_id" := VInt 7 ]} ]} [] [])
           "task_id").
  right. discriminate.
Defined.

Lemma ctx_entity_well_formed_witness :
  truthy (ProjectOpened.eid (ProjectOpened.Entity (VStr "Project") (VInt 65))) = true
  ∧ ProjectOpened.ctx_entity {[ "entity_id" := VInt 3 ]} = None.
Proof.
  split.
  - destruct (ctx_entity_well_formed {[ "entity_id" := VInt 0; "project_id" := VInt 65 ]})
      as [_ Hsome].
    destruct (Hsome (ProjectOpened.Entity (VStr "Project") (VInt 65))) as (Hid & _).
    + vm_compute. reflexivity.
    + exact Hid.
  - destruct (ctx_entity_well_formed {[ "entity_id" := VInt 3 ]}) as [Hnone _].
    apply Hnone. split; [|split].
    + vm_compute. discriminate.
    + vm_compute. intros [_ H]. discriminate H.
    + vm_compute. discriminate.
Defined.

Lemma commands_to_run_exact_witness :
  let commands : gmap string Startup.command :=
    {[ "x" := Startup.Command (Some "A") 1; "misc" := Startup.Command None 4 ]} in
  ∃ to_run,
    (Startup.commands_to_run "tk-mari" commands [Startup.AppSetting "A" EmptyString]
       (Startup.Engine [] [])).1 = Return to_run
    ∧ 1%nat ∈ to_run.
Proof.
  cbn zeta.
  destruct (commands_to_run_exact "tk-mari"
              ({[ "x" := Startup.Command (Some "A") 1;
                  "misc" := Startup.Command None 4 ]} : gmap string Startup.command)
              [Startup.AppSetting "A" EmptyString] (Startup.Engine [] []) 1%nat)
    as (to_run & Hrun & Hin).
  exists to_run. split; [exact Hrun|]. apply Hin.
  exists (Startup.AppSetting "A" EmptyString), "x", (Startup.Command (Some "A") 1).
  split; [left|]. split; [vm_compute; reflexivity|].
  split; [reflexivity|]. split; [reflexivity|]. left. reflexivity.
Defined.

Lemma run_stops_at_first_failure_witness :
  let commands : gmap string Startup.command :=
    {[ "x" := Startup.Command (Some "A") 1; "doit" := Startup.Command (Some "B") 3 ]} in
  let setting := [Startup.AppSetting "A" "x"; Startup.AppSetting "B" "doit";
                  Startup.AppSetting "A" "x"] in
  let behaviour (c : nat) :=
    if decide (c = 3%nat) then Raise (Exception "boom") else Return tt in
  let r := Startup._run_app_instance_commands "tk-mari" commands setting behaviour
             (Startup.Engine [] []) in
  r.1 = Raise (Exception "boom") ∧ Startup.invoked r.2 = [] ++ [1%nat] ++ [3%nat].
Proof.
  cbn zeta.
  apply (run_stops_at_first_failure "tk-mari"
           ({[ "x" := Startup.Command (Some "A") 1;
               "doit" := Startup.Command (Some "B") 3 ]} : gmap string Startup.command)
           [Startup.AppSetting "A" "x"; Startup.AppSetting "B" "doit";
            Startup.AppSetting "A" "x"]
           (λ c, if decide (c = 3%nat) then Raise (Exception "boom") else Return tt)
           (Startup.Engine [] []) [1%nat] [1%nat] 3%nat (Exception "boom")).
  - vm_compute. reflexivity.
  - apply Forall_forall. repeat constructor.
  - reflexivity.
Defined.

Lemma lifecycle_one_menu_witness :
  let cfg := Lifecycle.Config "tk-mari" ∅ [] (λ _, Return tt) in
  let e := Lifecycle.Engine false [] None 0 [] (Startup.Engine [] []) in
  let e' := Lifecycle.context_changes [(cfg, 2%nat); (cfg, 3%nat)]
              (Lifecycle.post_app_init cfg e).2 in
  Lifecycle.menu_in_place e'
  ∧ (length (Lifecycle.menus e') = if Lifecycle.inTerminalMode e' then 0 else 1)%nat
  ∧ (Lifecycle.destroy_engine e').1 = Return tt
  ∧ Lifecycle.menus (Lifecycle.destroy_engine e').2 = [].
Proof.
  cbn zeta.
  apply (lifecycle_one_menu (Lifecycle.Config "tk-mari" ∅ [] (λ _, Return tt))
           [(Lifecycle.Config "tk-mari" ∅ [] (λ _, Return tt), 2%nat);
            (Lifecycle.Config "tk-mari" ∅ [] (λ _, Return tt), 3%nat)]
           (Lifecycle.Engine false [] None 0 [] (Startup.Engine [] []))).
  reflexivity.
Defined.

Lemma lifecycle_connects_once_witness :
  let cfg := Lifecycle.Config "tk-mari" ∅ [] (λ _, Return tt) in
  let e := Lifecycle.Engine false [] None 0 [] (Startup.Engine [] []) in
  let e' := Lifecycle.context_changes [(cfg, 2%nat)] (Lifecycle.post_app_init cfg e).2 in
  Lifecycle.signal_calls e' = Lifecycle.signal_calls e ++ [Lifecycle.Connect]
  ∧ Lifecycle.signal_calls (Lifecycle.destroy_engine e').2
    = Lifecycle.signal_calls e ++ [Lifecycle.Connect; Lifecycle.Disconnect].
Proof.
  cbn zeta.
  apply (lifecycle_connects_once (Lifecycle.Config "tk-mari" ∅ [] (λ _, Return tt))
           [(Lifecycle.Config "tk-mari" ∅ [] (λ _, Return tt), 2%nat)]
           (Lifecycle.Engine false [] None 0 [] (Startup.Engine [] []))).
  reflexivity.
Defined.

Lemma context_change_reruns_commands_witness :
  let cfg := Lifecycle.Config "tk-mari" {[ "x" := Startup.Command (Some "A") 1 ]}
               [Startup.AppSetting "A" EmptyString] (λ _, Return tt) in
  let e := Lifecycle.Engine false [1%nat] (Some 1%nat) 1 [Lifecycle.Connect]
             (Startup.Engine [] [1%nat]) in
  let r := Lifecycle.post_context_change cfg 2%nat e in
  r.1 = Return tt
  ∧ Startup.invoked (Lifecycle.core r.2) = Startup.invoked (Lifecycle.core e) ++ [1%nat].
Proof.
  cbn zeta.
  apply (context_change_reruns_commands
           (Lifecycle.Config "tk-mari" {[ "x" := Startup.Command (Some "A") 1 ]}
              [Startup.AppSetting "A" EmptyString] (λ _, Return tt)) 2%nat
           (Lifecycle.Engine false [1%nat] (Some 1%nat) 1 [Lifecycle.Connect]
              (Startup.Engine [] [1%nat])) [1%nat]).
  - exists 1%nat. repeat split. cbn [Lifecycle.generators]. lia.
  - vm_compute. reflexivity.
  - intros c _. reflexivity.
Defined.

Lemma lifecycle_without_generator_witness :
  let cfg := Lifecycle.Config "tk-mari" ∅ [] (λ _, Return tt) in
  let e := Lifecycle.Engine false [] None 0 [] (Startup.Engine [] []) in
  (∃ msg, (Lifecycle.destroy_engine e).1 = Raise (AttributeError msg))
  ∧ Lifecycle.signal_calls (Lifecycle.destroy_engine e).2 = Lifecycle.signal_calls e.
Proof.
  cbn zeta.
  destruct (lifecycle_without_generator (Lifecycle.Config "tk-mari" ∅ [] (λ _, Return tt))
              2%nat (Lifecycle.Engine false [] None 0 [] (Startup.Engine [] [])))
    as [Hui _].
  destruct Hui as (_ & _ & _ & Hraise & Hsig); [reflexivity|reflexivity|].
  split; [exact Hraise|exact Hsig].
Defined.

Lemma on_project_saved_exports_witness :
  let name_template :=
    ProjectSaved.Template (λ _, true) (λ _, {[ "name" := VStr "hero" ]})
      (λ _, Return "unused") in
  let work_template :=
    ProjectSaved.Template (λ _, true) (λ _, ∅) (λ _, Return "/work/hero.v003.msf") in
  let w := ProjectSaved.World {[ "task_id" := VInt 7 ]} "hero" (VInt 3)
             {[ "tk-multi-workfiles2" := ProjectSaved.App (λ _, work_template);
                "tk-mari-projectmanager" := ProjectSaved.App (λ _, name_template) ]}
             {[ "Shot" := VStr "sh010" ]} in
  ProjectSaved.exported (ProjectSaved.__on_project_saved w (ProjectSaved.Engine [] [])).2
  = [] ++ ["/work/hero.v003.msf"].
Proof.
  cbn zeta.
  set (name_template :=
         ProjectSaved.Template (λ _, true) (λ _, {[ "name" := VStr "hero" ]})
           (λ _, Return "unused")).
  set (work_template :=
         ProjectSaved.Template (λ _, true) (λ _, ∅) (λ _, Return "/work/hero.v003.msf")).
  set (w := ProjectSaved.World {[ "task_id" := VInt 7 ]} "hero" (VInt 3)
              {[ "tk-multi-workfiles2" := ProjectSaved.App (λ _, work_template);
                 "tk-mari-projectmanager" := ProjectSaved.App (λ _, name_template) ]}
              {[ "Shot" := VStr "sh010" ]}).
  destruct (on_project_saved_exports w (ProjectSaved.Engine [] [])) as (Hexport & _).
  apply (Hexport "/work/hero.v003.msf"). split.
  - vm_compute. discriminate.
  - exists (ProjectSaved.App (λ _, work_template)),
      (ProjectSaved.App (λ _, name_template)).
    split; [vm_compute; reflexivity|]. split; [vm_compute; reflexivity|].
    split; reflexivity.
Defined.

Lemma on_project_saved_fields_witness :
  let name_template :=
    ProjectSaved.Template (λ _, true) (λ _, {[ "version" := VInt 9 ]})
      (λ _, Return "unused") in
  let work_template :=
    ProjectSaved.Template (λ _, true) (λ _, ∅)
      (λ fields, Return (str (get fields "version"))) in
  let w := ProjectSaved.World {[ "task_id" := VInt 7 ]} "hero" (VInt 3)
             {[ "tk-multi-workfiles2" := ProjectSaved.App (λ _, work_template);
                "tk-mari-projectmanager" := ProjectSaved.App (λ _, name_template) ]}
             {[ "version" := VInt 1 ]} in
  ∃ workfiles_app fields,
    ProjectSaved.apply_fields (ProjectSaved.get_template workfiles_app "template_work")
      fields = Return "3"
    ∧ fields !! "version" = Some (VInt 3).
Proof.
  cbn zeta.
  set (name_template :=
         ProjectSaved.Template (λ _, true) (λ _, {[ "version" := VInt 9 ]})
           (λ _, Return "unused")).
  set (work_template :=
         ProjectSaved.Template (λ _, true) (λ _, ∅)
           (λ fields, Return (str (get fields "version")))).
  set (w := ProjectSaved.World {[ "task_id" := VInt 7 ]} "hero" (VInt 3)
              {[ "tk-multi-workfiles2" := ProjectSaved.App (λ _, work_template);
                 "tk-mari-projectmanager" := ProjectSaved.App (λ _, name_template) ]}
              {[ "version" := VInt 1 ]}).
  destruct (on_project_saved_fields w (ProjectSaved.Engine [] []) "3")
    as (wa & pa & fields & _ & _ & Happly & Hversion & _).
  - vm_compute. reflexivity.
  - exists wa, fields. split; [exact Happly|exact Hversion].
Defined.
